(** * Generational iteration framework (klipper_sdk/generational.py)

    A shallow embedding of the three classes of [generational.py]:
    [GenerationTracker], [GenerationalBlueprintManager] and
    [GenerationalImprovementLoop], together with the properties the
    specification states about them.

    Modelling conventions.
    - Python values that travel through the untyped mappings of the code
      (metric values, tags, phase results, contexts) are terms of [PyVal];
      the operators the code applies to them ([not], [or], [dict.get],
      [for .. in], [<]) are the functions of module [Py].
    - Python [str] is Rocq [string], one character per code point (code
      points below 256); [int] is [Z]; a finite [float] is the rational
      number it denotes (the code only stores and compares floats).
    - Python dictionaries keep insertion order, so they are association
      lists with unique keys, read with [dict_get] and written with
      [dict_set].
    - The regular files of the host are a finite map from files to their
      contents.  A path names a file through the host's [fs_file], so two
      path strings that lead to one file read and write the same entry;
      [fs_access] tells what the host lets a path be used for.
    - Methods are computations in the monad [M]: they read and update one
      [World] (the tracker object, the blueprint manager, the loop's phase
      marker, the files, the clock) and either return a value or raise.
    - Log records are not kept: the code never reads a log back.  Building
      a log message can raise, though, and so can [json.dumps]: the
      interpreter refuses to print an integer of more than 4300 digits.
      This is modelled for the values a caller hands in (the metric value
      [log_metric] formats into its message; the metric values, tags,
      artifact metadata and changelog [to_json] writes).  Generation
      numbers, which a tracker counts up from 0 one call at a time, are
      taken to print. *)

From Stdlib Require Import ZArith QArith String Ascii DecimalString List Bool Lia.
From stdpp Require Import base option list sorting gmap strings.

Local Open Scope string_scope.
Local Open Scope list_scope.
Local Open Scope Z_scope.

(** ** Python values *)

Module Py.

#[local] Set Warnings "-register-all".

Inductive PyVal : Type :=
| VNone
| VBool (b : bool)
| VInt (z : Z)
| VFloat (q : Q)
| VStr (s : string)
| VList (l : list PyVal)
| VDict (d : list (string * PyVal)).

(** Exceptions, by kind. [UserError] stands for whatever an external
    collaborator (a persistence callback, an overriding phase) raises. *)
Inductive PyExc : Type :=
| TypeError
| ValueError
| OSError
| UserError (msg : string).

Inductive Outcome (A : Type) : Type :=
| Ok (a : A)
| Raise (e : PyExc).
Arguments Ok {A} a.
Arguments Raise {A} e.

(** [bool(v)]: the truth value Python's [not], [or] and [if] test. *)
Definition truthy (v : PyVal) : bool :=
  match v with
  | VNone => false
  | VBool b => b
  | VInt z => negb (z =? 0)
  | VFloat q => negb (Qnum q =? 0)
  | VStr s => negb (String.eqb s "")
  | VList l => match l with [] => false | _ => true end
  | VDict d => match d with [] => false | _ => true end
  end.

(** [a or b] *)
Definition py_or (a b : PyVal) : PyVal := if truthy a then a else b.

(** Insertion-ordered dictionaries with string keys. *)
Section Dict.
Context {V : Type}.

Fixpoint dict_get (k : string) (d : list (string * V)) : option V :=
  match d with
  | [] => None
  | (k', v) :: d' => if String.eqb k' k then Some v else dict_get k d'
  end.

(** [d[k] = v]: an existing key keeps its position, a new key goes last. *)
Fixpoint dict_set (k : string) (v : V) (d : list (string * V)) : list (string * V) :=
  match d with
  | [] => [(k, v)]
  | (k', v') :: d' =>
      if String.eqb k' k then (k, v) :: d' else (k', v') :: dict_set k v d'
  end.

Definition dict_keys (d : list (string * V)) : list string := map fst d.

End Dict.

(** [d.get(k, default)] on a mapping of Python values. *)
Definition get_default (k : string) (default : PyVal) (d : list (string * PyVal)) : PyVal :=
  match dict_get k d with
  | Some v => v
  | None => default
  end.

Fixpoint chars (s : string) : list PyVal :=
  match s with
  | EmptyString => []
  | String c s' => VStr (String c EmptyString) :: chars s'
  end.

(** [sep.join(parts)] *)
Fixpoint str_join (sep : string) (parts : list string) : string :=
  match parts with
  | [] => ""
  | [part] => part
  | part :: parts' => part +:+ sep +:+ str_join sep parts'
  end.

(** The items a [for] loop draws from a value; numbers, booleans and [None]
    are not iterable. *)
Definition py_iter (v : PyVal) : Outcome (list PyVal) :=
  match v with
  | VList l => Ok l
  | VStr s => Ok (chars s)
  | VDict d => Ok (map (fun kv => VStr (fst kv)) d)
  | VNone | VBool _ | VInt _ | VFloat _ => Raise TypeError
  end.

(** [v < x] for a float literal [x]: numbers (and booleans, which are
    integers) compare by value, anything else raises [TypeError]. *)
Definition py_lt_float (v : PyVal) (x : Q) : Outcome bool :=
  match v with
  | VBool b => Ok (if Qlt_le_dec (inject_Z (if b then 1 else 0)) x then true else false)
  | VInt z => Ok (if Qlt_le_dec (inject_Z z) x then true else false)
  | VFloat q => Ok (if Qlt_le_dec q x then true else false)
  | VNone | VStr _ | VList _ | VDict _ => Raise TypeError
  end.

(** The interpreter prints an integer of at most [int_max_str_digits]
    decimal digits, the sign not counted (the default of
    [sys.get_int_max_str_digits()]); printing a longer one raises
    [ValueError]. *)
Definition int_max_str_digits : N := 4300%N.

Definition int_digits (z : Z) : N :=
  N.of_nat (Decimal.nb_digits (N.to_uint (Z.abs_N z))).

Definition int_prints (z : Z) : bool := (int_digits z <=? int_max_str_digits)%N.

(** [str(v)], [f"{v}"] and [json.dumps(v)] print every integer inside [v]:
    they raise [ValueError] exactly when one of them does not print. *)
Fixpoint unprintable (v : PyVal) : bool :=
  match v with
  | VInt z => negb (int_prints z)
  | VList l => existsb unprintable l
  | VDict d => existsb (fun kv => match kv with (_, v') => unprintable v' end) d
  | VNone | VBool _ | VFloat _ | VStr _ => false
  end.

End Py.
Export Py.

Definition PyDict : Type := list (string * PyVal).

(** ** The host platform *)

(** What the host lets a path be used for.  A regular file that is there
    can be read.
    - [Writable]: [open(path, "w")] creates or truncates the file.
    - [ReadOnly e]: [open(path, "w")] raises [e] (a missing directory, a
      permission, a name with a null character); looking the path up and
      reading the file go as usual.
    - [Refused e]: the path cannot name a regular file (a name too long
      for the file system, a directory at the path): [Path.exists()] or
      the [read_text] after it raises [e], [open(path, "w")] raises [e],
      and [os.path.exists(path) and os.path.isfile(path)] is false. *)
Inductive Access : Type :=
| Writable
| ReadOnly (e : PyExc)
| Refused (e : PyExc).

(** Library functions and environment oracles the code calls but does not
    define: the clocks ([time.time()] and [datetime.now().isoformat()], as
    functions of the number of clock reads so far), [hashlib.md5] of a
    file's contents, [pathlib]'s [/] on the storage root followed by [str],
    the file a path leads to, what the host lets the path be used for,
    [str.splitlines] and [difflib.unified_diff]. *)
Class Host : Type := {
  time_time : nat -> Q;
  datetime_now_isoformat : nat -> string;
  md5_hexdigest : string -> string;
  path_join : string -> string -> string;
  fs_file : string -> string;
  fs_access : string -> Access;
  str_splitlines : string -> list string;
  unified_diff : list string -> list string -> string -> string -> list string
}.

(** [open(path, "w")] succeeds. *)
Definition fs_can_write `{Host} (path : string) : bool :=
  match fs_access path with
  | Writable => true
  | ReadOnly _ | Refused _ => false
  end.

(** The file system refuses the path. *)
Definition path_refused `{Host} (path : string) : bool :=
  match fs_access path with
  | Refused _ => true
  | Writable | ReadOnly _ => false
  end.

(** ** Constants and data structures *)

Inductive GenerationPhase : Type := TEST | ANALYZE | APPLY | ADVANCE | VALIDATE.

Inductive ComponentStatus : Type := ALPHA | BETA | STABLE | DEPRECATED.

(** [ComponentStatus.value] *)
Definition status_value (s : ComponentStatus) : string :=
  match s with
  | ALPHA => "ALPHA"
  | BETA => "BETA"
  | STABLE => "STABLE"
  | DEPRECATED => "DEPRECATED"
  end.

Module GenerationMetric.
Record t : Type := mk {
  name : string;
  value : PyVal;
  timestamp : Q;
  tags : PyVal
}.
End GenerationMetric.

Module GenerationArtifact.
Record t : Type := mk {
  name : string;
  artifact_type : string;
  path : string;
  hash_sum : string;
  metadata : PyVal
}.
End GenerationArtifact.

Module GenerationSnapshot.
Record t : Type := mk {
  gen_id : Z;
  component_name : string;
  timestamp : string;
  status : ComponentStatus;
  metrics : list GenerationMetric.t;
  artifacts : list (string * GenerationArtifact.t);
  changelog : PyVal;
  parent_gen_id : option Z
}.
End GenerationSnapshot.

(** [asdict] of the dataclasses, as the plain values [json] carries. *)
Definition metric_asdict (m : GenerationMetric.t) : PyVal :=
  VDict [("name", VStr (GenerationMetric.name m));
         ("value", GenerationMetric.value m);
         ("timestamp", VFloat (GenerationMetric.timestamp m));
         ("tags", GenerationMetric.tags m)].

Definition artifact_asdict (a : GenerationArtifact.t) : PyVal :=
  VDict [("name", VStr (GenerationArtifact.name a));
         ("artifact_type", VStr (GenerationArtifact.artifact_type a));
         ("path", VStr (GenerationArtifact.path a));
         ("hash_sum", VStr (GenerationArtifact.hash_sum a));
         ("metadata", GenerationArtifact.metadata a)].

(** The mapping [json.loads] reads back from the text [to_json] writes:
    [asdict] of the snapshot with [status] replaced by its string name.
    Every value of [PyVal] that [json.dumps] prints survives the trip
    through JSON text unchanged. *)
Definition snapshot_payload (s : GenerationSnapshot.t) : PyVal :=
  VDict [("gen_id", VInt (GenerationSnapshot.gen_id s));
         ("component_name", VStr (GenerationSnapshot.component_name s));
         ("timestamp", VStr (GenerationSnapshot.timestamp s));
         ("status", VStr (status_value (GenerationSnapshot.status s)));
         ("metrics", VList (map metric_asdict (GenerationSnapshot.metrics s)));
         ("artifacts",
           VDict (map (fun kv => (fst kv, artifact_asdict (snd kv)))
                      (GenerationSnapshot.artifacts s)));
         ("changelog", GenerationSnapshot.changelog s);
         ("parent_gen_id",
           match GenerationSnapshot.parent_gen_id s with
           | Some p => VInt p
           | None => VNone
           end)].

(** [json.dumps] prints the integers of the metric values, of the tags, of
    the artifact metadata and of the changelog. *)
Definition to_json_raises (s : GenerationSnapshot.t) : bool :=
  existsb (fun m => unprintable (GenerationMetric.value m)
                    || unprintable (GenerationMetric.tags m))
          (GenerationSnapshot.metrics s)
  || existsb (fun kv => unprintable (GenerationArtifact.metadata (snd kv)))
             (GenerationSnapshot.artifacts s)
  || unprintable (GenerationSnapshot.changelog s).

(** [json.loads(snapshot.to_json())] *)
Definition to_json (s : GenerationSnapshot.t) : Outcome PyVal :=
  if to_json_raises s then Raise ValueError else Ok (snapshot_payload s).

(** A persistence callback is known by what it does to its caller: return
    or raise.  The payloads it receives are recorded in the world. *)
Definition Callback : Type := PyVal -> Outcome unit.

Record GenerationTracker : Type := mkTracker {
  component_name : string;
  current_generation : Z;
  history : list GenerationSnapshot.t;
  _current_metrics : list GenerationMetric.t;
  _current_artifacts : list (string * GenerationArtifact.t);
  _persistence_callback : option Callback
}.

Record GenerationalBlueprintManager : Type := mkManager {
  storage_root : string
}.

(** ** The world and the monad of methods *)

Record World : Type := mkWorld {
  tracker : GenerationTracker;
  blueprint_manager : GenerationalBlueprintManager;
  current_phase : GenerationPhase;
  files : gmap string string;
  clock_reads : nat;
  persisted : list PyVal
}.

Definition M (A : Type) : Type := World -> Outcome A * World.

Definition ret {A} (a : A) : M A := fun w => (Ok a, w).

Definition raise {A} (e : PyExc) : M A := fun w => (Raise e, w).

Definition bind {A B} (m : M A) (k : A -> M B) : M B :=
  fun w =>
    match m w with
    | (Ok a, w') => k a w'
    | (Raise e, w') => (Raise e, w')
    end.

Notation "x <- m ;; k" := (bind m (fun x => k))
  (at level 90, m at next level, right associativity).
Notation "m ;;; k" := (bind m (fun _ => k))
  (at level 90, right associativity).

Definition lift_outcome {A} (o : Outcome A) : M A := fun w => (o, w).

Definition get_tracker : M GenerationTracker := fun w => (Ok (tracker w), w).

Definition put_tracker (t : GenerationTracker) : M unit :=
  fun w => (Ok tt, mkWorld t (blueprint_manager w) (current_phase w) (files w)
                           (clock_reads w) (persisted w)).

Definition set_phase (p : GenerationPhase) : M unit :=
  fun w => (Ok tt, mkWorld (tracker w) (blueprint_manager w) p (files w)
                           (clock_reads w) (persisted w)).

Definition get_files : M (gmap string string) := fun w => (Ok (files w), w).

Definition put_files (fs : gmap string string) : M unit :=
  fun w => (Ok tt, mkWorld (tracker w) (blueprint_manager w) (current_phase w) fs
                           (clock_reads w) (persisted w)).

(** One read of the clock. *)
Definition tick : M nat :=
  fun w => (Ok (clock_reads w),
            mkWorld (tracker w) (blueprint_manager w) (current_phase w) (files w)
                    (S (clock_reads w)) (persisted w)).

Definition record_payload (p : PyVal) : M unit :=
  fun w => (Ok tt, mkWorld (tracker w) (blueprint_manager w) (current_phase w)
                           (files w) (clock_reads w) (persisted w ++ [p])).

(** A [for] loop over a list whose body may raise. *)
Fixpoint for_each {A} (l : list A) (body : A -> M unit) : M unit :=
  match l with
  | [] => ret tt
  | x :: l' => body x ;;; for_each l' body
  end.

(** ** GenerationTracker *)

Section Tracker.
Context `{Host}.

(** [GenerationTracker.__init__] *)
Definition new_tracker (component_name : string)
    (persistence_callback : option Callback) : GenerationTracker :=
  mkTracker component_name 0 [] [] [] persistence_callback.

Definition start_next_generation : M Z :=
  t <- get_tracker ;;
  let t' := mkTracker (component_name t) (current_generation t + 1) (history t)
                      [] [] (_persistence_callback t) in
  put_tracker t' ;;;
  ret (current_generation t').

Definition log_metric (name : string) (value : PyVal) (tags : PyVal) : M unit :=
  now <- tick ;;
  let metric := GenerationMetric.mk name value (time_time now) (py_or tags (VDict [])) in
  t <- get_tracker ;;
  put_tracker (mkTracker (component_name t) (current_generation t) (history t)
                         (_current_metrics t ++ [metric]) (_current_artifacts t)
                         (_persistence_callback t)) ;;;
  (* f"Metric logged: {name}={value}" *)
  if unprintable value then raise ValueError else ret tt.

Definition register_artifact (name path type_hint : string) : M unit :=
  fs <- get_files ;;
  let checksum :=
    match fs_access path with
    | Refused _ => "unknown"
    | Writable | ReadOnly _ =>
        match fs !! fs_file path with
        | Some content => md5_hexdigest content
        | None => "unknown"
        end
    end in
  let artifact := GenerationArtifact.mk name type_hint path checksum (VDict []) in
  t <- get_tracker ;;
  put_tracker (mkTracker (component_name t) (current_generation t) (history t)
                         (_current_metrics t)
                         (dict_set name artifact (_current_artifacts t))
                         (_persistence_callback t)).

Definition finalize_generation (status : ComponentStatus) (notes : PyVal)
    : M GenerationSnapshot.t :=
  t <- get_tracker ;;
  now <- tick ;;
  let snapshot :=
    GenerationSnapshot.mk
      (current_generation t)
      (component_name t)
      (datetime_now_isoformat now)
      status
      (_current_metrics t)
      (_current_artifacts t)
      (py_or notes (VList []))
      (match last (history t) with
       | Some prev => Some (GenerationSnapshot.gen_id prev)
       | None => None
       end) in
  put_tracker (mkTracker (component_name t) (current_generation t)
                         (history t ++ [snapshot])
                         (_current_metrics t) (_current_artifacts t)
                         (_persistence_callback t)) ;;;
  match _persistence_callback t with
  | Some callback =>
      payload <- lift_outcome (to_json snapshot) ;;
      record_payload payload ;;;
      lift_outcome (callback payload)
  | None => ret tt
  end ;;;
  ret snapshot.

(** The inner loop of [get_metric_trend]: the first metric whose name
    matches is appended to the trend and the loop breaks. *)
Fixpoint scan_metrics (snap_gen_id : Z) (metric_name : string)
    (ms : list GenerationMetric.t) (trend : list (Z * PyVal)) : list (Z * PyVal) :=
  match ms with
  | [] => trend
  | m :: ms' =>
      if String.eqb (GenerationMetric.name m) metric_name
      then trend ++ [(snap_gen_id, GenerationMetric.value m)]
      else scan_metrics snap_gen_id metric_name ms' trend
  end.

Definition trend_of_history (metric_name : string)
    (history : list GenerationSnapshot.t) : list (Z * PyVal) :=
  fold_left
    (fun trend snap =>
       scan_metrics (GenerationSnapshot.gen_id snap) metric_name
                    (GenerationSnapshot.metrics snap) trend)
    history [].

Definition get_metric_trend (metric_name : string) : M (list (Z * PyVal)) :=
  t <- get_tracker ;;
  ret (trend_of_history metric_name (history t)).

(** *** Call sequences on one tracker *)

Inductive TrackerCall : Type :=
| CallStart
| CallLogMetric (name : string) (value tags : PyVal)
| CallRegisterArtifact (name path type_hint : string)
| CallFinalize (status : ComponentStatus) (notes : PyVal).

(** The world after one call; a caller that catches what the call raises
    goes on with this world. *)
Definition call (c : TrackerCall) (w : World) : World :=
  match c with
  | CallStart => snd (start_next_generation w)
  | CallLogMetric name value tags => snd (log_metric name value tags w)
  | CallRegisterArtifact name path type_hint =>
      snd (register_artifact name path type_hint w)
  | CallFinalize status notes => snd (finalize_generation status notes w)
  end.

Definition run_calls (cs : list TrackerCall) (w : World) : World :=
  fold_left (fun w c => call c w) cs w.

Definition is_start (c : TrackerCall) : bool :=
  match c with CallStart => true | _ => false end.

Definition is_finalize (c : TrackerCall) : bool :=
  match c with CallFinalize _ _ => true | _ => false end.

Definition count_calls (p : TrackerCall -> bool) (cs : list TrackerCall) : nat :=
  length (filter (fun c => p c = true) cs).

(** The documented caller discipline: [start_next_generation] and
    [finalize_generation] alternate, [start_next_generation] first.
    [opened] tells whether a generation was started and not yet sealed. *)
Fixpoint alternating (opened : bool) (cs : list TrackerCall) : bool :=
  match cs with
  | [] => true
  | CallStart :: cs' => negb opened && alternating true cs'
  | CallFinalize _ _ :: cs' => opened && alternating false cs'
  | _ :: cs' => alternating opened cs'
  end.

Definition gen_ids (history : list GenerationSnapshot.t) : list Z :=
  map GenerationSnapshot.gen_id history.

End Tracker.

(** A world around a freshly constructed tracker. *)
Definition fresh_world (component_name : string) (callback : option Callback)
    (root : string) (fs : gmap string string) : World :=
  mkWorld (new_tracker component_name callback) (mkManager root) TEST fs 0%nat [].

(** ** GenerationalBlueprintManager *)

Definition CR : ascii := "013"%char.
Definition LF : ascii := "010"%char.

(** What reading a text file opened with [newline=None] returns
    ([Path.read_text] opens it so): every ["\r\n"] and every other ["\r"]
    of the stored text comes back as ["\n"].  Writing in text mode on a
    POSIX host stores the characters as they are. *)
Fixpoint universal_newlines (s : string) : string :=
  match s with
  | EmptyString => EmptyString
  | String c s' =>
      if Ascii.eqb c CR
      then String LF
             match s' with
             | String c' s'' =>
                 if Ascii.eqb c' LF then universal_newlines s'' else universal_newlines s'
             | EmptyString => universal_newlines s'
             end
      else String c (universal_newlines s')
  end.

Fixpoint has_cr (s : string) : bool :=
  match s with
  | EmptyString => false
  | String c s' => Ascii.eqb c CR || has_cr s'
  end.

Section Blueprints.
Context `{Host}.

(** [f"{name}_v{version_tag}.kl"] *)
Definition blueprint_filename (name version_tag : string) : string :=
  name +:+ "_v" +:+ version_tag +:+ ".kl".

Definition blueprint_path (name version_tag : string) : M string :=
  fun w => (Ok (path_join (storage_root (blueprint_manager w))
                          (blueprint_filename name version_tag)), w).

Definition save_blueprint (name content version_tag : string) : M string :=
  path <- blueprint_path name version_tag ;;
  match fs_access path with
  | Writable => fs <- get_files ;; put_files (<[fs_file path := content]> fs)
  | ReadOnly e | Refused e => raise e
  end ;;;
  ret path.

Definition load_blueprint (name version_tag : string) : M (option string) :=
  path <- blueprint_path name version_tag ;;
  match fs_access path with
  | Refused e => raise e
  | Writable | ReadOnly _ =>
      fs <- get_files ;;
      match fs !! fs_file path with
      | Some stored => ret (Some (universal_newlines stored))
      | None => ret None
      end
  end.

Definition diff_blueprints (name v1 v2 : string) : M (list string) :=
  b1 <- load_blueprint name v1 ;;
  b2 <- load_blueprint name v2 ;;
  match b1, b2 with
  | Some text1, Some text2 =>
      ret (unified_diff (str_splitlines text1) (str_splitlines text2)
                        (name +:+ ":" +:+ v1) (name +:+ ":" +:+ v2))
  | _, _ => ret ["Error: One or both versions not found."]
  end.

End Blueprints.

(** ** GenerationalImprovementLoop *)

(** The phase methods a subclass (or an assignment to the instance)
    replaces; [phase_advance] is the loop's own. *)
Record PhaseMethods : Type := mkPhases {
  phase_test : PyDict -> M PyDict;
  phase_analyze : PyDict -> M PyDict;
  phase_apply : PyDict -> PyDict -> M PyDict;
  phase_validate : PyDict -> M PyDict
}.

(** The float literals of the default phases, as the rationals they denote. *)
Definition float_0_88 : Q := Qmake 7926335344172073 9007199254740992.
Definition float_0_9 : Q := Qmake 8106479329266893 9007199254740992.

Section Loop.
Context `{Host}.

Definition _switch_phase (phase : GenerationPhase) : M unit := set_phase phase.

Definition default_phase_test (context : PyDict) : M PyDict :=
  _switch_phase TEST ;;;
  log_metric "phase_test_duration_ms" (VInt 120) VNone ;;;
  ret [("success", VBool true); ("coverage", VFloat float_0_88); ("failures", VList [])].

Definition default_phase_analyze (test_results : PyDict) : M PyDict :=
  _switch_phase ANALYZE ;;;
  low <- lift_outcome (py_lt_float (get_default "coverage" VNone test_results) float_0_9) ;;
  let recommendations := if (low : bool) then [VStr "optimize_query_speed"] else [] in
  ret [("recommendations", VList recommendations); ("priority", VStr "HIGH")].

Definition default_phase_apply (analysis context : PyDict) : M PyDict :=
  _switch_phase APPLY ;;;
  let changes_applied := [VStr "Ran optimizer"] in
  ret [("changes", VList changes_applied); ("diff_summary", VStr "+5 lines, -2 lines")].

Definition default_phase_validate (advance_results : PyDict) : M PyDict :=
  _switch_phase VALIDATE ;;;
  let validated := true in
  log_metric "validation_success" (VInt (if validated then 1 else 0)) VNone ;;;
  ret [("validated", VBool validated); ("score", VInt 100)].

Definition default_phases : PhaseMethods :=
  mkPhases default_phase_test default_phase_analyze default_phase_apply
           default_phase_validate.

Definition phase_advance (apply_results : PyDict) : M PyDict :=
  _switch_phase ADVANCE ;;;
  gen_id <- start_next_generation ;;
  changes <- lift_outcome (py_iter (get_default "changes" (VList []) apply_results)) ;;
  for_each changes
    (fun change => log_metric "applied_change" (VInt 1) (VDict [("desc", change)])) ;;;
  snapshot <- finalize_generation STABLE (get_default "changes" VNone apply_results) ;;
  ret [("gen_id", VInt gen_id);
       ("snapshot_id", VStr (GenerationSnapshot.timestamp snapshot))].

Definition run_full_cycle (P : PhaseMethods) (context : PyDict)
    : M (list (string * PyDict)) :=
  let results := [] in
  r_test <- phase_test P context ;;
  let results := dict_set "test" r_test results in
  if negb (truthy (get_default "success" (VBool false) r_test))
  then ret results
  else
    r_analyze <- phase_analyze P r_test ;;
    let results := dict_set "analyze" r_analyze results in
    r_apply <- phase_apply P r_analyze context ;;
    let results := dict_set "apply" r_apply results in
    r_advance <- phase_advance r_apply ;;
    let results := dict_set "advance" r_advance results in
    r_validate <- phase_validate P r_advance ;;
    let results := dict_set "validate" r_validate results in
    ret results.

End Loop.

(** ** Definitions used to state the properties *)

Section Statements.
Context `{Host}.

(** The snapshot [finalize_generation status notes] builds in world [w]. *)
Definition sealed_snapshot (status : ComponentStatus) (notes : PyVal) (w : World)
    : GenerationSnapshot.t :=
  let t := tracker w in
  GenerationSnapshot.mk
    (current_generation t) (component_name t)
    (datetime_now_isoformat (clock_reads w)) status
    (_current_metrics t) (_current_artifacts t)
    (py_or notes (VList []))
    (GenerationSnapshot.gen_id <$> last (history t)).

(** The sequence 1, 2, ..., n. *)
Definition one_to (n : nat) : list Z := map Z.of_nat (seq 1 n).

(** Every history entry names its predecessor as parent; the first one
    has none. *)
Definition parent_chain (h : list GenerationSnapshot.t) : Prop :=
  forall i s, h !! i = Some s ->
    GenerationSnapshot.parent_gen_id s =
    match i with
    | O => None
    | S j => GenerationSnapshot.gen_id <$> h !! j
    end.

(** The trend as the specification words it: per snapshot, the value of
    the first metric with the requested name, if there is one. *)
Definition trend_by_spec (metric_name : string) (h : list GenerationSnapshot.t)
    : list (Z * PyVal) :=
  omap (fun snap =>
          (fun m => (GenerationSnapshot.gen_id snap, GenerationMetric.value m))
            <$> List.find (fun m => String.eqb (GenerationMetric.name m) metric_name)
                          (GenerationSnapshot.metrics snap))
       h.

Definition logs_metric (metric_name : string) (snap : GenerationSnapshot.t) : bool :=
  existsb (fun m => String.eqb (GenerationMetric.name m) metric_name)
          (GenerationSnapshot.metrics snap).

(** The path of a blueprint version, the file that path leads to, and what
    the store holds there. *)
Definition blueprint_file (name version_tag : string) (w : World) : string :=
  path_join (storage_root (blueprint_manager w)) (blueprint_filename name version_tag).

Definition blueprint_node (name version_tag : string) (w : World) : string :=
  fs_file (blueprint_file name version_tag w).

Definition stored_blueprint (name version_tag : string) (w : World) : option string :=
  files w !! blueprint_node name version_tag w.

(** What the persistence callback of tracker [t] is handed for a snapshot:
    its serialised form, if there is a callback and [to_json] returns. *)
Definition delivered (t : GenerationTracker) (snap : GenerationSnapshot.t) : list PyVal :=
  match _persistence_callback t with
  | Some _ => if to_json_raises snap then [] else [snapshot_payload snap]
  | None => []
  end.

(** How the persistence step of [finalize_generation] ends. *)
Definition persistence_outcome (t : GenerationTracker) (snap : GenerationSnapshot.t)
    : Outcome unit :=
  match _persistence_callback t with
  | Some callback =>
      if to_json_raises snap then Raise ValueError else callback (snapshot_payload snap)
  | None => Ok tt
  end.

Definition with_files (fs : gmap string string) (w : World) : World :=
  mkWorld (tracker w) (blueprint_manager w) (current_phase w) fs
          (clock_reads w) (persisted w).

(** The metrics [phase_advance] logs for a list of changes when the clock
    has been read [now] times: one per change, in order. *)
Fixpoint applied_change_metrics (now : nat) (changes : list PyVal)
    : list GenerationMetric.t :=
  match changes with
  | [] => []
  | change :: changes' =>
      GenerationMetric.mk "applied_change" (VInt 1) (time_time now)
                          (VDict [("desc", change)])
      :: applied_change_metrics (S now) changes'
  end.

(** The snapshot [phase_advance] seals in world [w] for a list of changes. *)
Definition advance_snapshot (w : World) (changes : list PyVal) : GenerationSnapshot.t :=
  GenerationSnapshot.mk
    (current_generation (tracker w) + 1)
    (component_name (tracker w))
    (datetime_now_isoformat (clock_reads w + length changes))
    STABLE
    (applied_change_metrics (clock_reads w) changes)
    []
    (VList changes)
    (GenerationSnapshot.gen_id <$> last (history (tracker w))).

(** The world [phase_advance] leaves behind. *)
Definition advanced_world (w : World) (changes : list PyVal) : World :=
  let snap := advance_snapshot w changes in
  mkWorld (mkTracker (component_name (tracker w))
                     (current_generation (tracker w) + 1)
                     (history (tracker w) ++ [snap])
                     (applied_change_metrics (clock_reads w) changes)
                     []
                     (_persistence_callback (tracker w)))
          (blueprint_manager w) ADVANCE (files w)
          (S (clock_reads w + length changes))
          (persisted w ++ delivered (tracker w) snap).

(** The mapping [phase_advance] returns. *)
Definition advance_result (w : World) (changes : list PyVal) : PyDict :=
  [("gen_id", VInt (current_generation (tracker w) + 1));
   ("snapshot_id", VStr (datetime_now_isoformat (clock_reads w + length changes)))].

(** A metric without its timestamp. *)
Definition metric_content (m : GenerationMetric.t) : string * PyVal * PyVal :=
  (GenerationMetric.name m, GenerationMetric.value m, GenerationMetric.tags m).

(** What a phase other than ADVANCE has to respect: it leaves the
    tracker's generation counter and history alone. *)
Definition keeps_generation_state (w w' : World) : Prop :=
  current_generation (tracker w') = current_generation (tracker w) /\
  history (tracker w') = history (tracker w).

(** The persistence callback, if there is one, returns. *)
Definition callback_returns (t : GenerationTracker) : Prop :=
  match _persistence_callback t with
  | Some callback => forall payload, callback payload = Ok tt
  | None => True
  end.

(** When a persistence callback is set, [json.dumps] prints the changes. *)
Definition changes_serialise (t : GenerationTracker) (changes : list PyVal) : Prop :=
  match _persistence_callback t with
  | Some _ => existsb unprintable changes = false
  | None => True
  end.

(** The five result keys, in the order the phases fill them in. *)
Definition all_phase_keys : list string :=
  ["test"; "analyze"; "apply"; "advance"; "validate"].

End Statements.

(** ** A host for the worked examples

    A POSIX host without symbolic links, in which every directory exists
    and every file may be written unless a component of its path is longer
    than 255 characters.  Its clock counts its reads. *)

(** The pieces of a path between its slashes. *)
Fixpoint path_pieces (s cur : string) : list string :=
  match s with
  | EmptyString => [cur]
  | String c s' =>
      if Ascii.eqb c "/" then cur :: path_pieces s' ""
      else path_pieces s' (cur +:+ String c "")
  end.

(** The components [pathlib] keeps: empty pieces and [.] are dropped,
    [..] stays. *)
Definition path_parts (s : string) : list string :=
  List.filter (fun piece => negb (String.eqb piece "" || String.eqb piece "."))
              (path_pieces s "").

(** The root of an absolute path: one slash, or two when the path starts
    with exactly two. *)
Definition path_anchor (s : string) : string :=
  if String.prefix "///" s then "/"
  else if String.prefix "//" s then "//"
  else if String.prefix "/" s then "/"
  else "".

Definition path_text (anchor : string) (parts : list string) : string :=
  match anchor, parts with
  | EmptyString, [] => "."
  | _, _ => anchor +:+ str_join "/" parts
  end.

(** [str(Path(root) / filename)]: an absolute [filename] replaces [root]. *)
Definition posix_path_join (root filename : string) : string :=
  if String.eqb (path_anchor filename) ""
  then path_text (path_anchor root) (path_parts root ++ path_parts filename)
  else path_text (path_anchor filename) (path_parts filename).

(** Following [..] one directory up; [stack] holds the components walked so
    far, last one first. *)
Fixpoint path_resolve (absolute : bool) (parts stack : list string) : list string :=
  match parts with
  | [] => rev stack
  | part :: parts' =>
      if String.eqb part ".."
      then match stack with
           | top :: stack' =>
               if String.eqb top ".." then path_resolve absolute parts' (part :: stack)
               else path_resolve absolute parts' stack'
           | [] =>
               if absolute then path_resolve absolute parts' []
               else path_resolve absolute parts' [part]
           end
      else path_resolve absolute parts' (part :: stack)
  end.

(** The file a path leads to, named by its shortest path. *)
Definition posix_file (path : string) : string :=
  path_text (path_anchor path)
            (path_resolve (negb (String.eqb (path_anchor path) "")) (path_parts path) []).

(** A component of more than 255 characters is refused. *)
Definition posix_access (path : string) : Access :=
  if existsb (fun piece => (255 <? String.length piece)%nat) (path_pieces path "")
  then Refused OSError
  else Writable.

(** The characters at which [str.splitlines] breaks a line. *)
Definition is_line_boundary (c : ascii) : bool :=
  existsb (Nat.eqb (nat_of_ascii c)) [10; 11; 12; 13; 28; 29; 30; 133]%nat.

(** [s.splitlines()]: a carriage return and the line feed after it count as
    one line boundary. *)
Fixpoint splitlines_from (s cur : string) : list string :=
  match s with
  | EmptyString => if String.eqb cur "" then [] else [cur]
  | String c s' =>
      if Ascii.eqb c CR
      then cur :: match s' with
                  | String c' s'' =>
                      if Ascii.eqb c' LF then splitlines_from s'' ""
                      else splitlines_from s' ""
                  | EmptyString => splitlines_from s' ""
                  end
      else if is_line_boundary c then cur :: splitlines_from s' ""
      else splitlines_from s' (cur +:+ String c "")
  end.

Definition example_splitlines (s : string) : list string := splitlines_from s "".

(** [difflib]'s line matching is not reproduced: of a diff the example
    host gives the two header lines, and no statement below reads them. *)
#[local] Instance example_host : Host := {|
  time_time n := inject_Z (Z.of_nat n);
  datetime_now_isoformat n := "tick-" +:+ NilZero.string_of_uint (Nat.to_uint n);
  md5_hexdigest s := "md5-of-" +:+ NilZero.string_of_uint (Nat.to_uint (String.length s));
  path_join := posix_path_join;
  fs_file := posix_file;
  fs_access := posix_access;
  str_splitlines := example_splitlines;
  unified_diff a b fromfile tofile := ["--- " +:+ fromfile; "+++ " +:+ tofile]
|}.

(** A call sequence that keeps the discipline: two generations, each
    started, measured and sealed. *)
Definition two_generations : list TrackerCall :=
  [CallStart;
   CallLogMetric "cpu_usage" (VInt 45) VNone;
   CallLogMetric "memory_mb" (VInt 1024) VNone;
   CallFinalize STABLE (VList [VStr "Initial release"]);
   CallStart;
   CallLogMetric "cpu_usage" (VInt 40) VNone;
   CallFinalize STABLE VNone].


(** A Test phase that measures, records and reports a failure. *)
Definition failing_test_phases : PhaseMethods :=
  mkPhases (fun ctx =>
              _switch_phase TEST ;;;
              log_metric "test_coverage" (VInt 0) VNone ;;;
              ret [("success", VBool false); ("coverage", VInt 0)])
           default_phase_analyze default_phase_apply default_phase_validate.


(** A Test phase whose result has no [success] key. *)
Definition silent_test_phases : PhaseMethods :=
  mkPhases (fun ctx => ret [("coverage", VInt 100)])
           default_phase_analyze default_phase_apply default_phase_validate.

(** A Test phase that reports [success] as the text ["false"]. *)
Definition textual_test_phases : PhaseMethods :=
  mkPhases (fun ctx => ret [("success", VStr "false"); ("coverage", VInt 100)])
           default_phase_analyze default_phase_apply default_phase_validate.

(** A blueprint name of 300 characters. *)
Definition long_name : string := string_of_list_ascii (replicate 300 "a"%char).

(** A text with a carriage return in the middle: ["a\rb"]. *)
Definition text_with_cr : string := String "a" (String CR (String "b" EmptyString)).

(** ** The demo's collaborators (generational_demo.py)

    [AutoEvolvingAgent.process_analysis] and the Analyze and Apply phases
    of [DemoImprovementLoop].  Its Test phase computes with floats and is
    left out. *)

(** [needle in s] for strings: [needle] occurs in [s]. *)
Fixpoint str_contains (needle s : string) : bool :=
  String.prefix needle s ||
  match s with
  | EmptyString => false
  | String _ s' => str_contains needle s'
  end.

(** [needle in v] for a string [needle]: an element equal to it in a list,
    a substring of a string, a key of a mapping; other values are no
    containers. *)
Definition py_contains_str (needle : string) (v : PyVal) : Outcome bool :=
  match v with
  | VList l =>
      Ok (existsb (fun x => match x with VStr s => String.eqb s needle | _ => false end) l)
  | VStr s => Ok (str_contains needle s)
  | VDict d => Ok (existsb (fun kv => String.eqb (fst kv) needle) d)
  | VNone | VBool _ | VInt _ | VFloat _ => Raise TypeError
  end.

(** [v > n] for an integer literal [n]. *)
Definition py_gt_int (v : PyVal) (n : Z) : Outcome bool :=
  match v with
  | VBool b => Ok (n <? (if b then 1 else 0))
  | VInt z => Ok (n <? z)
  | VFloat q => Ok (if Qlt_le_dec (inject_Z n) q then true else false)
  | VNone | VStr _ | VList _ | VDict _ => Raise TypeError
  end.

(** [str(z)] and [f"{z}"] for an integer. *)
Definition str_of_int (z : Z) : string := NilZero.string_of_int (Z.to_int z).

Definition process_analysis (analysis_report : PyDict) : Outcome (list string) :=
  let changes := [] in
  let recommendations := get_default "recommendations" (VList []) analysis_report in
  match py_contains_str "optimize_processing" recommendations with
  | Raise e => Raise e
  | Ok optimize =>
      let changes :=
        if optimize then changes ++ ["Refactored loop for O(n) complexity"] else changes in
      match py_contains_str "improve_error_handling" recommendations with
      | Raise e => Raise e
      | Ok improve =>
          let changes :=
            if improve then changes ++ ["Added try/catch blocks to ingestion"]
            else changes in
          let changes :=
            match changes with
            | [] => changes ++ ["Minor documentation updates"]
            | _ => changes
            end in
          Ok changes
      end
  end.

Definition newline : string := String LF EmptyString.

Section Demo.
Context `{Host}.

(** [DemoImprovementLoop.phase_analyze]; a missing key raises [KeyError]. *)
Definition demo_phase_analyze (test_results : PyDict) : M PyDict :=
  _switch_phase ANALYZE ;;;
  let recs := [] in
  latency <- lift_outcome (match dict_get "latency" test_results with
                           | Some v => Ok v
                           | None => Raise (UserError "KeyError: 'latency'")
                           end) ;;
  slow <- lift_outcome (py_gt_int latency 150) ;;
  let recs := if (slow : bool) then recs ++ [VStr "optimize_processing"] else recs in
  let recs :=
    if truthy (get_default "failures" VNone test_results)
    then recs ++ [VStr "improve_error_handling"] else recs in
  ret [("recommendations", VList recs)].

(** [DemoImprovementLoop.phase_apply] *)
Definition demo_phase_apply (analysis context : PyDict) : M PyDict :=
  _switch_phase APPLY ;;;
  changes <- lift_outcome (process_analysis analysis) ;;
  t <- get_tracker ;;
  let v_curr := str_of_int (current_generation t) +:+ ".0" in
  let v_next := str_of_int (current_generation t + 1) +:+ ".0" in
  loaded <- load_blueprint "DataProcessor" v_curr ;;
  let bp_content :=
    match loaded with
    | Some text => if String.eqb text "" then "Initial Content" else text
    | None => "Initial Content"
    end in
  let new_content :=
    bp_content +:+ newline +:+ "    # Update for " +:+ v_next +:+ ": "
               +:+ str_join ", " changes in
  save_blueprint "DataProcessor" new_content v_next ;;;
  diff <- diff_blueprints "DataProcessor" v_curr v_next ;;
  ret [("changes", VList (map VStr changes));
       ("diff_summary",
          VStr ("Modified " +:+ str_of_int (Z.of_nat (length changes)) +:+ " items"));
       ("full_diff", VList (map VStr diff))].

End Demo.

(** ** Definitions for the further properties *)

Section MoreStatements.
Context `{Host}.

(** One [log_metric] call per entry (name, value, tags), in order. *)
Definition log_calls (entries : list (string * PyVal * PyVal)) : list TrackerCall :=
  map (fun e => CallLogMetric e.1.1 e.1.2 e.2) entries.

(** What [log_metric] keeps of an entry: the tags default to [{}]. *)
Definition logged_content (e : string * PyVal * PyVal) : string * PyVal * PyVal :=
  (e.1.1, e.1.2, py_or e.2 (VDict [])).


(** A method leaves the tracker's counter and history alone in every world. *)
Definition phase_respects {A} (m : M A) : Prop :=
  forall w, keeps_generation_state w (snd (m w)).

Definition phases_respect (P : PhaseMethods) : Prop :=
  (forall ctx, phase_respects (phase_test P ctx)) /\
  (forall r, phase_respects (phase_analyze P r)) /\
  (forall r ctx, phase_respects (phase_apply P r ctx)) /\
  (forall r, phase_respects (phase_validate P r)).

(** The world after one cycle per context, whatever each cycle returns. *)
Definition run_cycles (P : PhaseMethods) (contexts : list PyDict) (w : World) : World :=
  fold_left (fun w ctx => snd (run_full_cycle P ctx w)) contexts w.

(** Every metric of every snapshot is an [applied_change]. *)
Definition only_applied_changes (h : list GenerationSnapshot.t) : Prop :=
  Forall (fun snap =>
            Forall (fun m => GenerationMetric.name m = "applied_change")
                   (GenerationSnapshot.metrics snap)) h.

(** The world once the loop has marked a phase as entered. *)
Definition entered (phase : GenerationPhase) (w : World) : World :=
  snd (_switch_phase phase w).

(** The changelog [phase_advance] passes on: [apply_results.get("changes")],
    or [[]] when that is missing or false. *)
Definition advance_changelog (apply_results : PyDict) : PyVal :=
  py_or (get_default "changes" VNone apply_results) (VList []).

(** The results of the default Test, Analyze, Apply and Validate phases. *)
Definition default_test_result : PyDict :=
  [("success", VBool true); ("coverage", VFloat float_0_88); ("failures", VList [])].

Definition default_analyze_result : PyDict :=
  [("recommendations", VList [VStr "optimize_query_speed"]); ("priority", VStr "HIGH")].

Definition default_apply_result : PyDict :=
  [("changes", VList [VStr "Ran optimizer"]); ("diff_summary", VStr "+5 lines, -2 lines")].

Definition default_validate_result : PyDict :=
  [("validated", VBool true); ("score", VInt 100)].

(** A value that is a number to [<]: an integer, a boolean or a float. *)
Definition is_number (v : PyVal) : bool :=
  match v with
  | VBool _ | VInt _ | VFloat _ => true
  | _ => false
  end.

(** What the demo's agent changes for the two recommendations the demo's
    Analyze phase can make. *)
Definition demo_changes (slow failing : bool) : list string :=
  match slow, failing with
  | true, true =>
      ["Refactored loop for O(n) complexity"; "Added try/catch blocks to ingestion"]
  | true, false => ["Refactored loop for O(n) complexity"]
  | false, true => ["Added try/catch blocks to ingestion"]
  | false, false => ["Minor documentation updates"]
  end.

(** The values [x in v] accepts on its right. *)
Definition is_container (v : PyVal) : bool :=
  match v with
  | VStr _ | VList _ | VDict _ => true
  | VNone | VBool _ | VInt _ | VFloat _ => false
  end.

(** The version tags the demo's Apply phase reads and writes. *)
Definition demo_v_curr (w : World) : string :=
  str_of_int (current_generation (tracker w)) +:+ ".0".

Definition demo_v_next (w : World) : string :=
  str_of_int (current_generation (tracker w) + 1) +:+ ".0".

(** The text the demo's Apply phase extends: the current version as it is
    read back, or the placeholder when that is missing or empty. *)
Definition demo_base (w : World) : string :=
  match stored_blueprint "DataProcessor" (demo_v_curr w) w with
  | Some stored =>
      if String.eqb (universal_newlines stored) "" then "Initial Content"
      else universal_newlines stored
  | None => "Initial Content"
  end.

Definition demo_update (w : World) (changes : list string) : string :=
  demo_base w +:+ newline +:+ "    # Update for " +:+ demo_v_next w +:+ ": "
              +:+ str_join ", " changes.

End MoreStatements.

(** * Properties of GenerationTracker *)

Section TrackerFacts.
Context `{Host}.

Lemma start_next_generation_eq w :
  start_next_generation w =
  (Ok (current_generation (tracker w) + 1),
   mkWorld (mkTracker (component_name (tracker w))
                      (current_generation (tracker w) + 1)
                      (history (tracker w)) [] []
                      (_persistence_callback (tracker w)))
           (blueprint_manager w) (current_phase w) (files w)
           (clock_reads w) (persisted w)).
Proof. reflexivity. Qed.

Lemma log_metric_eq name value tags w :
  log_metric name value tags w =
  (if unprintable value then Raise ValueError else Ok tt,
   mkWorld (mkTracker (component_name (tracker w))
                      (current_generation (tracker w))
                      (history (tracker w))
                      (_current_metrics (tracker w) ++
                         [GenerationMetric.mk name value (time_time (clock_reads w))
                                              (py_or tags (VDict []))])
                      (_current_artifacts (tracker w))
                      (_persistence_callback (tracker w)))
           (blueprint_manager w) (current_phase w) (files w)
           (S (clock_reads w)) (persisted w)).
Proof.
  unfold log_metric, bind, tick, get_tracker, put_tracker, raise, ret. simpl.
  destruct (unprintable value); reflexivity.
Qed.

Lemma finalize_generation_eq status notes w :
  finalize_generation status notes w =
  let snap := sealed_snapshot status notes w in
  let t' := mkTracker (component_name (tracker w)) (current_generation (tracker w))
                      (history (tracker w) ++ [snap])
                      (_current_metrics (tracker w)) (_current_artifacts (tracker w))
                      (_persistence_callback (tracker w)) in
  (match persistence_outcome (tracker w) snap with
   | Ok _ => Ok snap
   | Raise e => Raise e
   end,
   mkWorld t' (blueprint_manager w) (current_phase w) (files w)
           (S (clock_reads w)) (persisted w ++ delivered (tracker w) snap)).
Proof.
  unfold finalize_generation, sealed_snapshot, persistence_outcome, delivered, to_json,
    bind, get_tracker, tick, put_tracker, record_payload, lift_outcome, ret.
  destruct (_persistence_callback (tracker w)) as [cb|] eqn:Hcb.
  - destruct (last (history (tracker w))) as [prev|];
      cbn -[to_json_raises snapshot_payload]; rewrite ?Hcb;
      match goal with |- context [to_json_raises ?snap] => destruct (to_json_raises snap) end;
      rewrite ?app_nil_r; try reflexivity;
      match goal with |- context [cb ?p] => destruct (cb p) end; reflexivity.
  - destruct (last (history (tracker w))) as [prev|];
      cbn -[to_json_raises snapshot_payload]; rewrite ?Hcb, ?app_nil_r; reflexivity.
Qed.

Lemma finalize_generation_tracker status notes w :
  tracker (snd (finalize_generation status notes w)) =
  mkTracker (component_name (tracker w)) (current_generation (tracker w))
            (history (tracker w) ++ [sealed_snapshot status notes w])
            (_current_metrics (tracker w)) (_current_artifacts (tracker w))
            (_persistence_callback (tracker w)).
Proof. rewrite finalize_generation_eq. reflexivity. Qed.

Lemma call_start_tracker w :
  tracker (call CallStart w) =
  mkTracker (component_name (tracker w)) (current_generation (tracker w) + 1)
            (history (tracker w)) [] [] (_persistence_callback (tracker w)).
Proof. reflexivity. Qed.

Lemma call_finalize_tracker status notes w :
  tracker (call (CallFinalize status notes) w) =
  mkTracker (component_name (tracker w)) (current_generation (tracker w))
            (history (tracker w) ++ [sealed_snapshot status notes w])
            (_current_metrics (tracker w)) (_current_artifacts (tracker w))
            (_persistence_callback (tracker w)).
Proof. apply finalize_generation_tracker. Qed.

Lemma call_log_metric_tracker name value tags w :
  current_generation (tracker (call (CallLogMetric name value tags) w)) =
    current_generation (tracker w) /\
  history (tracker (call (CallLogMetric name value tags) w)) = history (tracker w).
Proof. simpl. rewrite log_metric_eq. split; reflexivity. Qed.

Lemma call_register_artifact_tracker name path type_hint w :
  current_generation (tracker (call (CallRegisterArtifact name path type_hint) w)) =
    current_generation (tracker w) /\
  history (tracker (call (CallRegisterArtifact name path type_hint) w)) =
    history (tracker w).
Proof. split; reflexivity. Qed.

(** What one call does to the counter and to the history. *)
Lemma call_generation_state c w :
  let t := tracker w in
  let t' := tracker (call c w) in
  match c with
  | CallStart =>
      current_generation t' = current_generation t + 1 /\ history t' = history t
  | CallFinalize status notes =>
      current_generation t' = current_generation t /\
      history t' = history t ++ [sealed_snapshot status notes w]
  | _ => current_generation t' = current_generation t /\ history t' = history t
  end.
Proof.
  destruct c; cbv zeta.
  - rewrite call_start_tracker; simpl; auto.
  - apply call_log_metric_tracker.
  - apply call_register_artifact_tracker.
  - rewrite call_finalize_tracker; simpl; auto.
Qed.

Lemma run_calls_cons c cs w : run_calls (c :: cs) w = run_calls cs (call c w).
Proof. reflexivity. Qed.

Lemma count_calls_cons p c cs :
  count_calls p (c :: cs) = ((if p c then 1 else 0) + count_calls p cs)%nat.
Proof.
  unfold count_calls. rewrite filter_cons.
  destruct (p c) eqn:E; case_decide; try congruence; reflexivity.
Qed.

(** The counter counts the [start_next_generation] calls. *)
Lemma run_calls_current_generation cs w :
  current_generation (tracker (run_calls cs w)) =
  current_generation (tracker w) + Z.of_nat (count_calls is_start cs).
Proof.
  revert w; induction cs as [|c cs IH]; intros w.
  - simpl. unfold count_calls; simpl. lia.
  - rewrite run_calls_cons, IH, count_calls_cons.
    pose proof (call_generation_state c w) as Hc.
    destruct c; cbv zeta in Hc; destruct Hc as [-> _]; simpl; lia.
Qed.

(** The history grows by one entry per [finalize_generation] call. *)
Lemma run_calls_history_length cs w :
  length (history (tracker (run_calls cs w))) =
  (length (history (tracker w)) + count_calls is_finalize cs)%nat.
Proof.
  revert w; induction cs as [|c cs IH]; intros w.
  - simpl. unfold count_calls; simpl. lia.
  - rewrite run_calls_cons, IH, count_calls_cons.
    pose proof (call_generation_state c w) as Hc.
    destruct c; cbv zeta in Hc; destruct Hc as [_ ->]; simpl;
      rewrite ?length_app; simpl; lia.
Qed.

Lemma one_to_S n : one_to (S n) = one_to n ++ [Z.of_nat n + 1].
Proof.
  unfold one_to. rewrite seq_S, map_app. simpl. f_equal. f_equal. lia.
Qed.

Lemma one_to_lookup n i g : one_to n !! i = Some g -> g = Z.of_nat i + 1.
Proof.
  unfold one_to. rewrite list_lookup_fmap. intros Hl.
  destruct (seq 1 n !! i) as [k|] eqn:E; simpl in Hl; [|discriminate].
  apply lookup_seq in E. destruct E as [-> _]. injection Hl as <-. lia.
Qed.

(** Under the alternating discipline the history is numbered 1, 2, 3, ...
    and the counter is one ahead exactly while a generation is open. *)
Lemma run_calls_alternating cs : forall opened w,
  alternating opened cs = true ->
  gen_ids (history (tracker w)) = one_to (length (history (tracker w))) ->
  current_generation (tracker w) =
    Z.of_nat (length (history (tracker w))) + (if opened then 1 else 0) ->
  gen_ids (history (tracker (run_calls cs w))) =
    one_to (length (history (tracker (run_calls cs w)))).
Proof.
  induction cs as [|c cs IH]; intros opened w Halt Hids Hcg; [exact Hids|].
  rewrite run_calls_cons.
  pose proof (call_generation_state c w) as Hc.
  destruct c; cbv zeta in Hc; destruct Hc as [Hg Hh]; simpl in Halt.
  - apply andb_prop in Halt as [Hop Halt]. destruct opened; [discriminate|].
    apply (IH true); [exact Halt | rewrite Hh; exact Hids | rewrite Hg, Hh, Hcg; lia].
  - apply (IH opened); [exact Halt | rewrite Hh; exact Hids | rewrite Hg, Hh; exact Hcg].
  - apply (IH opened); [exact Halt | rewrite Hh; exact Hids | rewrite Hg, Hh; exact Hcg].
  - apply andb_prop in Halt as [Hop Halt]. destruct opened; [|discriminate].
    apply (IH false); [exact Halt | | ].
    + rewrite Hh, length_app. simpl length.
      replace (length (history (tracker w)) + 1)%nat
        with (S (length (history (tracker w)))) by lia.
      rewrite one_to_S. unfold gen_ids in *. rewrite map_app, Hids. simpl.
      rewrite Hcg. reflexivity.
    + rewrite Hg, Hh, length_app, Hcg. simpl length. lia.
Qed.

Lemma parent_chain_snoc status notes w :
  parent_chain (history (tracker w)) ->
  parent_chain (history (tracker w) ++ [sealed_snapshot status notes w]).
Proof.
  set (h := history (tracker w)). intros Hh i s Hl.
  destruct (decide (i < length h)%nat) as [Hlt|Hge].
  - rewrite lookup_app_l in Hl by exact Hlt.
    rewrite (Hh i s Hl). destruct i as [|j]; [reflexivity|].
    rewrite lookup_app_l by lia. reflexivity.
  - rewrite lookup_app_r in Hl by lia.
    destruct (i - length h)%nat as [|k] eqn:Hk; simpl in Hl; [|discriminate].
    injection Hl as <-. simpl. fold h. rewrite last_lookup.
    assert (i = length h) as -> by lia.
    destruct (length h) as [|j] eqn:Hlen.
    + apply nil_length_inv in Hlen. rewrite Hlen. reflexivity.
    + simpl. rewrite lookup_app_l by lia. reflexivity.
Qed.

Lemma run_calls_parent_chain cs : forall w,
  parent_chain (history (tracker w)) ->
  parent_chain (history (tracker (run_calls cs w))).
Proof.
  induction cs as [|c cs IH]; intros w Hw; [exact Hw|].
  rewrite run_calls_cons. apply IH.
  pose proof (call_generation_state c w) as Hc.
  destruct c; cbv zeta in Hc; destruct Hc as [_ ->]; try exact Hw.
  apply parent_chain_snoc, Hw.
Qed.

Lemma scan_metrics_find g x ms trend :
  scan_metrics g x ms trend =
  trend ++ match List.find (fun m => String.eqb (GenerationMetric.name m) x) ms with
           | Some m => [(g, GenerationMetric.value m)]
           | None => []
           end.
Proof.
  induction ms as [|m ms IH]; simpl.
  - symmetry; apply app_nil_r.
  - destruct (String.eqb (GenerationMetric.name m) x); [reflexivity | exact IH].
Qed.

Lemma trend_fold_spec x h : forall acc,
  fold_left
    (fun trend snap =>
       scan_metrics (GenerationSnapshot.gen_id snap) x
                    (GenerationSnapshot.metrics snap) trend) h acc =
  acc ++ trend_by_spec x h.
Proof.
  induction h as [|snap h IH]; intros acc; simpl.
  - symmetry; apply app_nil_r.
  - rewrite IH, scan_metrics_find, <- app_assoc. f_equal.
    unfold trend_by_spec at 2. simpl.
    destruct (List.find _ (GenerationSnapshot.metrics snap)); reflexivity.
Qed.

Lemma trend_of_history_spec x h : trend_of_history x h = trend_by_spec x h.
Proof. unfold trend_of_history. rewrite trend_fold_spec. reflexivity. Qed.

Lemma find_existsb {A} (p : A -> bool) (l : list A) :
  existsb p l = match List.find p l with Some _ => true | None => false end.
Proof.
  induction l as [|a l IH]; simpl; [reflexivity|].
  destruct (p a); [reflexivity | exact IH].
Qed.

(** The generations of a trend are those of the snapshots that logged
    the metric, in history order. *)
Lemma trend_gen_ids x h :
  map fst (trend_by_spec x h) =
  gen_ids (List.filter (logs_metric x) h).
Proof.
  induction h as [|snap h IH]; [reflexivity|].
  unfold trend_by_spec, logs_metric in *. simpl.
  rewrite find_existsb.
  destruct (List.find _ (GenerationSnapshot.metrics snap)); simpl;
    [f_equal|]; exact IH.
Qed.

Lemma filter_strongly_sorted (R : Z -> Z -> Prop) (p : GenerationSnapshot.t -> bool) h :
  StronglySorted R (gen_ids h) -> StronglySorted R (gen_ids (List.filter p h)).
Proof.
  induction h as [|snap h IH]; simpl; intros Hs; [constructor|].
  apply StronglySorted_cons in Hs as [Hall Hs].
  destruct (p snap); simpl; [|exact (IH Hs)].
  apply StronglySorted_cons. split; [|exact (IH Hs)].
  clear -Hall. induction h as [|s h IH]; simpl in *; [constructor|].
  apply Forall_cons in Hall as [Hx Hall].
  destruct (p s); simpl; [constructor|]; auto.
Qed.

(** Generation numbers in a history never decrease, and none exceeds the
    counter. *)
Lemma run_calls_gen_ids_sorted cs : forall w,
  StronglySorted Z.le (gen_ids (history (tracker w))) ->
  Forall (fun g => g <= current_generation (tracker w)) (gen_ids (history (tracker w))) ->
  StronglySorted Z.le (gen_ids (history (tracker (run_calls cs w)))).
Proof.
  induction cs as [|c cs IH]; intros w Hs Hb; [exact Hs|].
  rewrite run_calls_cons.
  pose proof (call_generation_state c w) as Hc.
  destruct c; cbv zeta in Hc; destruct Hc as [Hg Hh]; apply IH; rewrite ?Hg, Hh;
    try exact Hs; try exact Hb.
  - eapply Forall_impl; [exact Hb|]. simpl; intros; lia.
  - unfold gen_ids. rewrite map_app. apply StronglySorted_app_2.
    + intros a b Ha Hb'. simpl in Hb'. apply list_elem_of_singleton in Hb'; subst b.
      rewrite Forall_forall in Hb. apply Hb, Ha.
    + exact Hs.
    + repeat constructor.
  - unfold gen_ids. rewrite map_app. apply Forall_app. split; [exact Hb|].
    repeat constructor. simpl. lia.
Qed.

Lemma one_to_strictly_sorted n : StronglySorted Z.lt (one_to n).
Proof.
  induction n as [|n IH]; [constructor|].
  rewrite one_to_S. apply StronglySorted_app_2; [|exact IH|repeat constructor].
  intros a b Ha Hb. apply list_elem_of_singleton in Hb; subst b.
  apply list_elem_of_lookup in Ha as [i Hi].
  pose proof (lookup_lt_Some _ _ _ Hi) as Hlt.
  apply one_to_lookup in Hi. unfold one_to in Hlt.
  rewrite length_map, length_seq in Hlt. lia.
Qed.

End TrackerFacts.

(** C1 (as amended). A new tracker's [current_generation] is 0 and every
    [start_next_generation] call raises it by exactly 1; after any call
    sequence the history is as long as the number of [finalize_generation]
    calls made; and when [start_next_generation] and [finalize_generation]
    alternate, [start_next_generation] first, the [gen_id]s of the history
    are 1, 2, 3, ... without gaps, each equal to its index plus 1. *)
Theorem generation_numbering `{Host} :
  forall (name root : string) (cb : option Callback) (fs : gmap string string)
         (cs : list TrackerCall),
    let w0 := fresh_world name cb root fs in
    let t := tracker (run_calls cs w0) in
    current_generation (tracker w0) = 0 /\
    (forall w, fst (start_next_generation w) = Ok (current_generation (tracker w) + 1) /\
               current_generation (tracker (snd (start_next_generation w))) =
               current_generation (tracker w) + 1) /\
    current_generation t = Z.of_nat (count_calls is_start cs) /\
    length (history t) = count_calls is_finalize cs /\
    (alternating false cs = true ->
       gen_ids (history t) = one_to (count_calls is_finalize cs) /\
       forall i s, history t !! i = Some s ->
                   GenerationSnapshot.gen_id s = Z.of_nat i + 1).
Proof.
  intros name root cb fs cs w0 t.
  split; [reflexivity|].
  split; [intros w; rewrite start_next_generation_eq; split; reflexivity|].
  split; [unfold t; rewrite run_calls_current_generation; reflexivity|].
  assert (length (history t) = count_calls is_finalize cs) as Hlen
    by (unfold t; rewrite run_calls_history_length; reflexivity).
  split; [exact Hlen|].
  intros Halt.
  assert (gen_ids (history t) = one_to (count_calls is_finalize cs)) as Hids.
  { rewrite <- Hlen. unfold t.
    apply (run_calls_alternating cs false w0 Halt); reflexivity. }
  split; [exact Hids|].
  intros i s Hi. apply (one_to_lookup (count_calls is_finalize cs)).
  rewrite <- Hids. unfold gen_ids. rewrite list_lookup_fmap, Hi. reflexivity.
Qed.

Lemma generation_numbering_witness :
  alternating false two_generations = true /\
  gen_ids (history (tracker (run_calls two_generations
                                       (fresh_world "TestComponent" None "blueprints" ∅))))
  = [1; 2].
Proof.
  split; [reflexivity|].
  destruct (generation_numbering "TestComponent" "blueprints" None ∅ two_generations)
    as (_ & _ & _ & _ & Halt).
  destruct (Halt eq_refl) as [Hids _]. exact Hids.
Defined.

(** C1 as stated fails: sealing before any generation was started (as the
    demo does for its generation 0) puts [gen_id] 0 into the history, so
    the numbers are not 1, 2, 3, ... after every call sequence. *)
Lemma generation_numbering_needs_discipline :
  let cs := [CallFinalize ALPHA (VList [VStr "Initial setup"])] in
  let t := tracker (run_calls cs (fresh_world "DataProcessor" None "demo_data/blueprints" ∅)) in
  gen_ids (history t) = [0] /\
  gen_ids (history t) <> one_to (count_calls is_finalize cs).
Proof. split; [reflexivity | discriminate]. Qed.

(** Sealing twice without starting in between repeats a [gen_id]. *)
Example finalize_twice_repeats_gen_id :
  gen_ids (history (tracker (run_calls [CallStart; CallFinalize STABLE VNone;
                                         CallFinalize STABLE VNone]
                                       (fresh_world "c" None "r" ∅)))) = [1; 1].
Proof. reflexivity. Qed.

(** C2. In every state a tracker reaches from its construction, the history
    entry at index 0 has [parent_gen_id = None] and the entry at an index
    [i > 0] has the [gen_id] of the entry at [i - 1] as its
    [parent_gen_id]. *)
Theorem parent_links `{Host} :
  forall (name root : string) (cb : option Callback) (fs : gmap string string)
         (cs : list TrackerCall) (i : nat) (s : GenerationSnapshot.t),
    let h := history (tracker (run_calls cs (fresh_world name cb root fs))) in
    h !! i = Some s ->
    match i with
    | O => GenerationSnapshot.parent_gen_id s = None
    | S j => exists p, h !! j = Some p /\
                       GenerationSnapshot.parent_gen_id s =
                       Some (GenerationSnapshot.gen_id p)
    end.
Proof.
  intros name root cb fs cs i s h Hi.
  assert (parent_chain h) as Hchain.
  { apply run_calls_parent_chain. intros j x Hj. discriminate. }
  pose proof (Hchain i s Hi) as Hp. destruct i as [|j]; [exact Hp|].
  destruct (h !! j) as [p|] eqn:Hj.
  - exists p. split; [reflexivity | exact Hp].
  - apply lookup_ge_None in Hj. apply lookup_lt_Some in Hi. lia.
Qed.

Lemma parent_links_witness :
  exists s p,
    history (tracker (run_calls two_generations
                                (fresh_world "TestComponent" None "blueprints" ∅))) !! 1%nat
      = Some s /\
    GenerationSnapshot.gen_id p = 1 /\
    GenerationSnapshot.parent_gen_id s = Some (GenerationSnapshot.gen_id p).
Proof.
  destruct (history (tracker (run_calls two_generations
                                        (fresh_world "TestComponent" None "blueprints" ∅)))
              !! 1%nat) as [s|] eqn:Hs; [|vm_compute in Hs; discriminate Hs].
  destruct (parent_links "TestComponent" "blueprints" None ∅ two_generations 1%nat s Hs)
    as (p & Hp & Hparent).
  exists s, p. split; [reflexivity|]. split; [|exact Hparent].
  vm_compute in Hp. injection Hp as <-. reflexivity.
Defined.

(** C5. [finalize_generation] leaves [current_generation], the open metrics
    and the open artifacts as they were: it appends exactly one snapshot to
    the history and, when a persistence callback is set, hands it that
    snapshot's serialised form (unless [to_json] raises, which ends the call
    with the snapshot in the history and the callback not called); nothing
    else of the tracker, the files or the loop changes. *)
Theorem finalize_generation_frame `{Host} :
  forall (status : ComponentStatus) (notes : PyVal) (w : World),
    let t := tracker w in
    let w' := snd (finalize_generation status notes w) in
    let t' := tracker w' in
    let snap := sealed_snapshot status notes w in
    current_generation t' = current_generation t /\
    _current_metrics t' = _current_metrics t /\
    _current_artifacts t' = _current_artifacts t /\
    history t' = history t ++ [snap] /\
    component_name t' = component_name t /\
    _persistence_callback t' = _persistence_callback t /\
    files w' = files w /\
    blueprint_manager w' = blueprint_manager w /\
    current_phase w' = current_phase w /\
    persisted w' =
      persisted w ++ match _persistence_callback t with
                     | Some _ => if to_json_raises snap then [] else [snapshot_payload snap]
                     | None => []
                     end /\
    match _persistence_callback t with
    | Some callback =>
        fst (finalize_generation status notes w) =
        if to_json_raises snap then Raise ValueError
        else match callback (snapshot_payload snap) with
             | Ok _ => Ok snap
             | Raise e => Raise e
             end
    | None => fst (finalize_generation status notes w) = Ok snap
    end.
Proof.
  intros status notes w t w' t' snap. unfold t', w', snap, t.
  rewrite finalize_generation_eq. cbv zeta.
  unfold persistence_outcome, delivered.
  destruct (_persistence_callback (tracker w)) as [cb|] eqn:Hcb;
    cbn -[to_json_raises snapshot_payload sealed_snapshot].
  - destruct (to_json_raises (sealed_snapshot status notes w)); repeat split; auto.
  - repeat split; auto.
Qed.

(** C8. [get_metric_trend x] returns, for the history snapshots that hold
    at least one metric named [x] and for no others, one pair of the
    snapshot's [gen_id] and the value of its first metric named [x], in
    history order; on a tracker used since its construction these
    [gen_id]s ascend, strictly so under the alternating discipline. *)
Theorem metric_trend_first_match `{Host} :
  forall (x : string),
    (forall w,
       get_metric_trend x w = (Ok (trend_by_spec x (history (tracker w))), w) /\
       length (trend_by_spec x (history (tracker w))) =
         length (List.filter (logs_metric x) (history (tracker w)))) /\
    (forall (name root : string) (cb : option Callback) (fs : gmap string string)
            (cs : list TrackerCall),
       let h := history (tracker (run_calls cs (fresh_world name cb root fs))) in
       map fst (trend_by_spec x h) = gen_ids (List.filter (logs_metric x) h) /\
       StronglySorted Z.le (map fst (trend_by_spec x h)) /\
       (alternating false cs = true -> StronglySorted Z.lt (map fst (trend_by_spec x h)))).
Proof.
  intros x. split.
  - intros w. split.
    + unfold get_metric_trend, bind, get_tracker, ret.
      rewrite trend_of_history_spec. reflexivity.
    + rewrite <- (length_map fst), trend_gen_ids. unfold gen_ids.
      rewrite length_map. reflexivity.
  - intros name root cb fs cs h. split; [apply trend_gen_ids|].
    rewrite trend_gen_ids. split.
    + apply filter_strongly_sorted. unfold h.
      apply run_calls_gen_ids_sorted; constructor.
    + intros Halt. apply filter_strongly_sorted. unfold h.
      rewrite (run_calls_alternating cs false _ Halt); [|reflexivity..].
      apply one_to_strictly_sorted.
Qed.

Lemma metric_trend_first_match_witness :
  alternating false two_generations = true /\
  fst (get_metric_trend "cpu_usage"
         (run_calls two_generations (fresh_world "TestComponent" None "blueprints" ∅)))
    = Ok [(1, VInt 45); (2, VInt 40)] /\
  StronglySorted Z.lt
    (map fst (trend_by_spec "cpu_usage"
       (history (tracker (run_calls two_generations
                            (fresh_world "TestComponent" None "blueprints" ∅)))))).
Proof.
  split; [reflexivity|].
  destruct (metric_trend_first_match "cpu_usage") as [Hget Hsorted].
  split.
  - destruct (Hget (run_calls two_generations
                      (fresh_world "TestComponent" None "blueprints" ∅))) as [-> _].
    reflexivity.
  - destruct (Hsorted "TestComponent" "blueprints" None ∅ two_generations)
      as (_ & _ & Hlt).
    exact (Hlt eq_refl).
Defined.

(** First occurrence wins: a later metric of the same name in the same
    generation does not show in the trend, and a generation without the
    metric leaves no entry. *)
Example trend_takes_first_and_skips :
  fst (get_metric_trend "x"
         (run_calls [CallStart; CallLogMetric "x" (VInt 1) VNone;
                     CallLogMetric "x" (VInt 2) VNone; CallFinalize STABLE VNone;
                     CallStart; CallLogMetric "y" (VInt 7) VNone;
                     CallFinalize STABLE VNone;
                     CallStart; CallLogMetric "x" (VInt 3) VNone;
                     CallFinalize STABLE VNone]
                    (fresh_world "c" None "r" ∅)))
  = Ok [(1, VInt 1); (3, VInt 3)].
Proof. reflexivity. Qed.

(** * Properties of GenerationalBlueprintManager *)

Section BlueprintFacts.
Context `{Host}.

Lemma universal_newlines_no_cr s : has_cr s = false -> universal_newlines s = s.
Proof.
  induction s as [|c s IH]; simpl; [reflexivity|].
  intros Hcr. apply orb_false_elim in Hcr as [Hc Hs].
  rewrite Hc, (IH Hs). reflexivity.
Qed.

Lemma save_blueprint_eq name content tag w :
  save_blueprint name content tag w =
  match fs_access (blueprint_file name tag w) with
  | Writable =>
      (Ok (blueprint_file name tag w),
       with_files (<[blueprint_node name tag w := content]> (files w)) w)
  | ReadOnly e | Refused e => (Raise e, w)
  end.
Proof.
  unfold save_blueprint, bind, blueprint_path, blueprint_node, blueprint_file. simpl.
  destruct (fs_access _); reflexivity.
Qed.

(** A save that returns did write the file, and changed nothing else. *)
Lemma save_blueprint_ok name content tag w p w' :
  save_blueprint name content tag w = (Ok p, w') ->
  p = blueprint_file name tag w /\
  w' = with_files (<[blueprint_node name tag w := content]> (files w)) w /\
  fs_access (blueprint_file name tag w) = Writable.
Proof.
  rewrite save_blueprint_eq. destruct (fs_access _); try discriminate.
  intros [= <- <-]. repeat split; reflexivity.
Qed.

Lemma load_blueprint_eq name tag w :
  load_blueprint name tag w =
  (match fs_access (blueprint_file name tag w) with
   | Refused e => Raise e
   | Writable | ReadOnly _ => Ok (universal_newlines <$> stored_blueprint name tag w)
   end, w).
Proof.
  unfold load_blueprint, bind, blueprint_path, get_files, stored_blueprint, blueprint_node,
    blueprint_file.
  simpl. destruct (fs_access _); try reflexivity; destruct (files w !! _); reflexivity.
Qed.

(** On a path the file system accepts, [load_blueprint] returns. *)
Lemma load_blueprint_accepted name tag w :
  path_refused (blueprint_file name tag w) = false ->
  load_blueprint name tag w = (Ok (universal_newlines <$> stored_blueprint name tag w), w).
Proof.
  rewrite load_blueprint_eq. unfold path_refused.
  destruct (fs_access _); [reflexivity | reflexivity | discriminate].
Qed.

Lemma writable_accepted path : fs_access path = Writable -> path_refused path = false.
Proof. unfold path_refused. intros ->. reflexivity. Qed.

Lemma blueprint_file_with_files name tag fs w :
  blueprint_file name tag (with_files fs w) = blueprint_file name tag w.
Proof. reflexivity. Qed.

Lemma blueprint_node_with_files name tag fs w :
  blueprint_node name tag (with_files fs w) = blueprint_node name tag w.
Proof. reflexivity. Qed.

Lemma load_after_save name content tag w p w' :
  save_blueprint name content tag w = (Ok p, w') ->
  load_blueprint name tag w' = (Ok (Some (universal_newlines content)), w').
Proof.
  intros Hsave. apply save_blueprint_ok in Hsave as (_ & -> & Hacc).
  rewrite load_blueprint_accepted
    by (rewrite blueprint_file_with_files; apply writable_accepted, Hacc).
  unfold stored_blueprint. rewrite blueprint_node_with_files. simpl.
  rewrite lookup_insert_eq. reflexivity.
Qed.

(** What [diff_blueprints] does when one of its two loads finds nothing. *)
Lemma diff_blueprints_missing name v1 v2 w :
  path_refused (blueprint_file name v1 w) = false ->
  path_refused (blueprint_file name v2 w) = false ->
  stored_blueprint name v1 w = None \/ stored_blueprint name v2 w = None ->
  diff_blueprints name v1 v2 w = (Ok ["Error: One or both versions not found."], w).
Proof.
  intros Hp1 Hp2 Habsent. unfold diff_blueprints, bind.
  rewrite (load_blueprint_accepted _ _ _ Hp1), (load_blueprint_accepted _ _ _ Hp2).
  destruct Habsent as [-> | ->]; simpl.
  - destruct (stored_blueprint name v2 w); reflexivity.
  - destruct (stored_blueprint name v1 w); reflexivity.
Qed.

End BlueprintFacts.

(** C6 (as amended). After [save_blueprint name content tag] has returned,
    [load_blueprint name tag] returns exactly [content] whenever [content]
    holds no carriage return; in general it returns [content] as text mode
    reads it back, every line ending turned into a line feed. *)
Theorem blueprint_round_trip `{Host} :
  forall (name content tag p : string) (w w' : World),
    save_blueprint name content tag w = (Ok p, w') ->
    has_cr content = false ->
    load_blueprint name tag w' = (Ok (Some content), w').
Proof.
  intros name content tag p w w' Hsave Hcr.
  rewrite (load_after_save _ _ _ _ _ _ Hsave), (universal_newlines_no_cr _ Hcr).
  reflexivity.
Qed.

Lemma blueprint_round_trip_witness :
  load_blueprint "plan" "v1"
    (snd (save_blueprint "plan" "step: 1" "v1" (fresh_world "TestComponent" None "blueprints" ∅)))
  = (Ok (Some "step: 1"),
     snd (save_blueprint "plan" "step: 1" "v1" (fresh_world "TestComponent" None "blueprints" ∅))).
Proof.
  apply (blueprint_round_trip "plan" "step: 1" "v1" "blueprints/plan_vv1.kl"
           (fresh_world "TestComponent" None "blueprints" ∅)); vm_compute; reflexivity.
Defined.

(** C6 as stated fails: a content with a carriage return does not come
    back as it was saved. *)
Lemma round_trip_loses_carriage_return :
  let w0 := fresh_world "TestComponent" None "blueprints" ∅ in
  let w1 := snd (save_blueprint "P" text_with_cr "v1" w0) in
  fst (save_blueprint "P" text_with_cr "v1" w0) = Ok "blueprints/P_vv1.kl" /\
  fst (load_blueprint "P" "v1" w1) = Ok (Some (String "a" (String LF (String "b" EmptyString)))) /\
  fst (load_blueprint "P" "v1" w1) <> Ok (Some text_with_cr).
Proof.
  cbv zeta. split; [vm_compute; reflexivity|].
  split; [vm_compute; reflexivity|].
  vm_compute. intros Heq. discriminate Heq.
Qed.

(** C7 (as amended). On paths the file system accepts: when either version
    is absent from the store, [diff_blueprints] returns the one-element
    list holding its error message and raises nothing; [load_blueprint] of
    an absent version returns [None] and raises nothing.  Neither changes
    the world. *)
Theorem missing_version_is_data `{Host} :
  forall (name v1 v2 : string) (w : World),
    path_refused (blueprint_file name v1 w) = false ->
    path_refused (blueprint_file name v2 w) = false ->
    stored_blueprint name v1 w = None \/ stored_blueprint name v2 w = None ->
    diff_blueprints name v1 v2 w = (Ok ["Error: One or both versions not found."], w) /\
    (stored_blueprint name v1 w = None -> load_blueprint name v1 w = (Ok None, w)) /\
    (stored_blueprint name v2 w = None -> load_blueprint name v2 w = (Ok None, w)).
Proof.
  intros name v1 v2 w Hp1 Hp2 Habsent. split.
  - apply diff_blueprints_missing; assumption.
  - split; intros Hnone; rewrite load_blueprint_accepted, Hnone by assumption; reflexivity.
Qed.

Lemma missing_version_is_data_witness :
  let w1 := snd (save_blueprint "plan" "step: 1" "v1"
                   (fresh_world "TestComponent" None "blueprints" ∅)) in
  stored_blueprint "plan" "v2" w1 = None /\
  diff_blueprints "plan" "v1" "v2" w1 = (Ok ["Error: One or both versions not found."], w1) /\
  load_blueprint "plan" "v2" w1 = (Ok None, w1).
Proof.
  cbv zeta.
  assert (stored_blueprint "plan" "v2"
            (snd (save_blueprint "plan" "step: 1" "v1"
                    (fresh_world "TestComponent" None "blueprints" ∅))) = None) as Habsent
    by (vm_compute; reflexivity).
  split; [exact Habsent|].
  destruct (missing_version_is_data "plan" "v1" "v2"
              (snd (save_blueprint "plan" "step: 1" "v1"
                      (fresh_world "TestComponent" None "blueprints" ∅))))
    as (Hdiff & _ & Hload).
  - vm_compute. reflexivity.
  - vm_compute. reflexivity.
  - right. exact Habsent.
  - split; [exact Hdiff | exact (Hload Habsent)].
Defined.

(** C7 as stated fails: not for every name.  A name too long for the file
    system makes [Path.exists()] raise, so [load_blueprint] and
    [diff_blueprints] of a version that is absent raise [OSError]. *)
Lemma long_name_is_not_data :
  let w := fresh_world "TestComponent" None "blueprints" ∅ in
  String.length long_name = 300%nat /\
  stored_blueprint long_name "v1" w = None /\
  stored_blueprint long_name "v2" w = None /\
  load_blueprint long_name "v1" w = (Raise OSError, w) /\
  diff_blueprints long_name "v1" "v2" w = (Raise OSError, w).
Proof. cbv zeta. repeat split; vm_compute; reflexivity. Qed.

(** C10 (as amended). [save_blueprint] writes, and [load_blueprint] reads,
    the file at the path [storage_root / (name + "_v" + version_tag + ".kl")].
    That naming is not injective: the distinct pairs [("a_vb", "c")] and
    [("a", "b_vc")] name one file, so after saving [C1] under the first and
    then [C2] under the second, loading the first returns what was saved as
    [C2], as text mode reads it back: [C2] itself when it holds no carriage
    return. *)
Theorem version_files_collide `{Host} :
  (forall (name content tag p : string) (w w' : World),
     save_blueprint name content tag w = (Ok p, w') ->
     p = path_join (storage_root (blueprint_manager w)) (name +:+ "_v" +:+ tag +:+ ".kl") /\
     files w' = <[fs_file p := content]> (files w)) /\
  (forall (name tag : string) (text : option string) (w w' : World),
     load_blueprint name tag w = (Ok text, w') ->
     text = universal_newlines <$>
              files w !! fs_file (path_join (storage_root (blueprint_manager w))
                                            (name +:+ "_v" +:+ tag +:+ ".kl"))) /\
  ("a_vb", "c") <> ("a", "b_vc") /\
  "a_vb" +:+ "_v" +:+ "c" +:+ ".kl" = "a" +:+ "_v" +:+ "b_vc" +:+ ".kl" /\
  forall (C1 C2 p1 p2 : string) (w w1 w2 : World),
    save_blueprint "a_vb" C1 "c" w = (Ok p1, w1) ->
    save_blueprint "a" C2 "b_vc" w1 = (Ok p2, w2) ->
    p1 = p2 /\
    load_blueprint "a_vb" "c" w2 = (Ok (Some (universal_newlines C2)), w2) /\
    (has_cr C2 = false -> load_blueprint "a_vb" "c" w2 = (Ok (Some C2), w2)).
Proof.
  split.
  { intros name content tag p w w' Hsave.
    apply save_blueprint_ok in Hsave as (-> & -> & _). split; reflexivity. }
  split.
  { intros name tag text w w' Hload. rewrite load_blueprint_eq in Hload.
    destruct (fs_access _); try discriminate; injection Hload as <- _; reflexivity. }
  split; [discriminate|]. split; [reflexivity|].
  intros C1 C2 p1 p2 w w1 w2 Hs1 Hs2.
  pose proof (load_after_save _ _ _ _ _ _ Hs2) as Hload.
  apply save_blueprint_ok in Hs1 as (-> & -> & _).
  apply save_blueprint_ok in Hs2 as (-> & Hw2 & _).
  split; [reflexivity|].
  assert (load_blueprint "a_vb" "c" w2 = load_blueprint "a" "b_vc" w2) as ->
    by (rewrite !load_blueprint_eq; reflexivity).
  split; [exact Hload|].
  intros Hcr. rewrite Hload, (universal_newlines_no_cr _ Hcr). reflexivity.
Qed.

Lemma version_files_collide_witness :
  let w0 := fresh_world "TestComponent" None "blueprints" ∅ in
  let w1 := snd (save_blueprint "a_vb" "first" "c" w0) in
  let w2 := snd (save_blueprint "a" "second" "b_vc" w1) in
  load_blueprint "a_vb" "c" w2 = (Ok (Some "second"), w2).
Proof.
  cbv zeta.
  destruct version_files_collide as (_ & _ & _ & _ & Hcollide).
  destruct (Hcollide "first" "second" "blueprints/a_vb_vc.kl" "blueprints/a_vb_vc.kl"
              (fresh_world "TestComponent" None "blueprints" ∅)
              (snd (save_blueprint "a_vb" "first" "c"
                      (fresh_world "TestComponent" None "blueprints" ∅)))
              (snd (save_blueprint "a" "second" "b_vc"
                      (snd (save_blueprint "a_vb" "first" "c"
                              (fresh_world "TestComponent" None "blueprints" ∅))))))
    as (_ & _ & Hload).
  - vm_compute. reflexivity.
  - vm_compute. reflexivity.
  - exact (Hload eq_refl).
Defined.

(** C10 as stated fails for a [C2] with a carriage return: what the first
    pair then loads is [C2] with its line ending changed, not [C2]. *)
Lemma collision_returns_text_as_read :
  let w0 := fresh_world "TestComponent" None "blueprints" ∅ in
  let w1 := snd (save_blueprint "a_vb" "first" "c" w0) in
  let w2 := snd (save_blueprint "a" text_with_cr "b_vc" w1) in
  fst (save_blueprint "a_vb" "first" "c" w0) = Ok "blueprints/a_vb_vc.kl" /\
  fst (save_blueprint "a" text_with_cr "b_vc" w1) = Ok "blueprints/a_vb_vc.kl" /\
  fst (load_blueprint "a_vb" "c" w2) =
    Ok (Some (String "a" (String LF (String "b" EmptyString)))) /\
  fst (load_blueprint "a_vb" "c" w2) <> Ok (Some text_with_cr).
Proof.
  cbv zeta. repeat split; try (vm_compute; reflexivity).
  vm_compute. intros Heq. discriminate Heq.
Qed.

(** * Properties of GenerationalImprovementLoop *)

Section LoopFacts.
Context `{Host}.

Lemma for_each_log_applied_changes changes : forall w,
  for_each changes
    (fun change => log_metric "applied_change" (VInt 1) (VDict [("desc", change)])) w =
  (Ok tt,
   mkWorld (mkTracker (component_name (tracker w)) (current_generation (tracker w))
                      (history (tracker w))
                      (_current_metrics (tracker w) ++
                         applied_change_metrics (clock_reads w) changes)
                      (_current_artifacts (tracker w))
                      (_persistence_callback (tracker w)))
           (blueprint_manager w) (current_phase w) (files w)
           (clock_reads w + length changes)%nat (persisted w)).
Proof.
  induction changes as [|c cs IH]; intros w.
  - simpl. unfold ret. rewrite app_nil_r, Nat.add_0_r.
    destruct w as [[] ? ? ? ? ?]; reflexivity.
  - cbn [for_each]. unfold bind at 1. rewrite log_metric_eq.
    cbn [unprintable int_prints]. change (negb (int_prints 1)) with false. cbv iota.
    rewrite IH. simpl.
    rewrite <- app_assoc. simpl.
    replace (S (clock_reads w + length cs)) with (clock_reads w + S (length cs))%nat by lia.
    reflexivity.
Qed.

Lemma py_or_list changes : py_or (VList changes) (VList []) = VList changes.
Proof. destruct changes; reflexivity. Qed.

Lemma existsb_applied_change_metrics now changes :
  existsb (fun m => unprintable (GenerationMetric.value m)
                    || unprintable (GenerationMetric.tags m))
          (applied_change_metrics now changes) =
  existsb unprintable changes.
Proof.
  revert now; induction changes as [|c cs IH]; intros now; [reflexivity|].
  cbn [applied_change_metrics existsb]. rewrite IH.
  cbn [GenerationMetric.value GenerationMetric.tags unprintable existsb].
  change (negb (int_prints 1)) with false. rewrite orb_false_r. reflexivity.
Qed.

(** [to_json] of the snapshot [phase_advance] seals prints the changes, as
    tags of the metrics and as the changelog. *)
Lemma to_json_raises_advance_snapshot w changes :
  to_json_raises (advance_snapshot w changes) = existsb unprintable changes.
Proof.
  unfold to_json_raises, advance_snapshot.
  cbn [GenerationSnapshot.metrics GenerationSnapshot.artifacts GenerationSnapshot.changelog
       existsb unprintable].
  rewrite existsb_applied_change_metrics, orb_false_r, orb_diag. reflexivity.
Qed.

(** [phase_advance] on an Apply result that reports a list of changes. *)
Lemma phase_advance_eq r w changes :
  dict_get "changes" r = Some (VList changes) ->
  phase_advance r w =
  (match persistence_outcome (tracker w) (advance_snapshot w changes) with
   | Ok _ => Ok (advance_result w changes)
   | Raise e => Raise e
   end,
   advanced_world w changes).
Proof.
  intros Hc. unfold phase_advance, get_default. rewrite Hc.
  unfold bind at 1. unfold _switch_phase, set_phase.
  unfold bind at 1. rewrite start_next_generation_eq.
  unfold bind at 1. unfold lift_outcome, py_iter.
  unfold bind at 1. rewrite for_each_log_applied_changes.
  unfold bind at 1. rewrite finalize_generation_eq.
  unfold sealed_snapshot, advanced_world, advance_snapshot, advance_result, ret,
    persistence_outcome, delivered.
  cbn -[Z.add datetime_now_isoformat applied_change_metrics snapshot_payload to_json_raises].
  rewrite py_or_list.
  destruct (_persistence_callback (tracker w)) as [cb|]; [|reflexivity].
  match goal with |- context [to_json_raises ?snap] => destruct (to_json_raises snap) end;
    [reflexivity|].
  match goal with |- context [cb ?p] => destruct (cb p) end; reflexivity.
Qed.

Lemma get_default_success_key r v :
  dict_get "success" r = Some v -> get_default "success" (VBool false) r = v.
Proof. unfold get_default. intros ->. reflexivity. Qed.

(** The early exit of [run_full_cycle]. *)
Lemma run_full_cycle_abort P ctx w0 r_test w1 :
  phase_test P ctx w0 = (Ok r_test, w1) ->
  truthy (get_default "success" (VBool false) r_test) = false ->
  run_full_cycle P ctx w0 = (Ok [("test", r_test)], w1).
Proof.
  intros Htest Hfalsy. unfold run_full_cycle, bind. rewrite Htest. simpl.
  rewrite Hfalsy. reflexivity.
Qed.

(** The full pass of [run_full_cycle]. *)
Lemma run_full_cycle_complete P ctx w0 r_test w1 r_analyze w2 r_apply w3
      r_advance w4 r_validate w5 :
  phase_test P ctx w0 = (Ok r_test, w1) ->
  truthy (get_default "success" (VBool false) r_test) = true ->
  phase_analyze P r_test w1 = (Ok r_analyze, w2) ->
  phase_apply P r_analyze ctx w2 = (Ok r_apply, w3) ->
  phase_advance r_apply w3 = (Ok r_advance, w4) ->
  phase_validate P r_advance w4 = (Ok r_validate, w5) ->
  run_full_cycle P ctx w0 =
  (Ok [("test", r_test); ("analyze", r_analyze); ("apply", r_apply);
       ("advance", r_advance); ("validate", r_validate)], w5).
Proof.
  intros Htest Htruthy Hanalyze Happly Hadvance Hvalidate.
  unfold run_full_cycle, bind. rewrite Htest. simpl. rewrite Htruthy. simpl.
  rewrite Hanalyze, Happly, Hadvance, Hvalidate. reflexivity.
Qed.

Lemma applied_change_metrics_content now changes :
  map metric_content (applied_change_metrics now changes) =
  map (fun change => ("applied_change", VInt 1, VDict [("desc", change)])) changes.
Proof.
  revert now; induction changes as [|c cs IH]; intros now; simpl; [reflexivity|].
  rewrite IH. reflexivity.
Qed.

Lemma phase_advance_ok r w changes :
  dict_get "changes" r = Some (VList changes) ->
  callback_returns (tracker w) ->
  changes_serialise (tracker w) changes ->
  phase_advance r w = (Ok (advance_result w changes), advanced_world w changes).
Proof.
  intros Hc Hcb Hser. rewrite (phase_advance_eq _ _ _ Hc).
  unfold callback_returns in Hcb. unfold changes_serialise in Hser.
  unfold persistence_outcome.
  destruct (_persistence_callback (tracker w)) as [cb|]; [|reflexivity].
  rewrite to_json_raises_advance_snapshot, Hser, Hcb. reflexivity.
Qed.

End LoopFacts.


Lemma default_phase_validate_eq `{Host} r w :
  default_phase_validate r w =
  (Ok [("validated", VBool true); ("score", VInt 100)],
   mkWorld (mkTracker (component_name (tracker w)) (current_generation (tracker w))
                      (history (tracker w))
                      (_current_metrics (tracker w) ++
                         [GenerationMetric.mk "validation_success" (VInt 1)
                                              (time_time (clock_reads w)) (VDict [])])
                      (_current_artifacts (tracker w))
                      (_persistence_callback (tracker w)))
           (blueprint_manager w) VALIDATE (files w) (S (clock_reads w)) (persisted w)).
Proof.
  unfold default_phase_validate, bind, _switch_phase, set_phase.
  cbn [fst snd]. rewrite log_metric_eq. reflexivity.
Qed.



(** C4. When the Test phase returns a result whose [success] is [False],
    [run_full_cycle] returns the mapping with the single key [test] and
    leaves the world as the Test phase left it: whatever the Analyze, Apply
    and Validate methods are, none of them runs, and the tracker's
    [current_generation] and history are what they were before the cycle
    once the Test phase itself respects them. *)
Theorem failed_test_aborts_cycle `{Host} :
  forall (P : PhaseMethods) (ctx r_test : PyDict) (w0 w1 : World),
    phase_test P ctx w0 = (Ok r_test, w1) ->
    dict_get "success" r_test = Some (VBool false) ->
    run_full_cycle P ctx w0 = (Ok [("test", r_test)], w1) /\
    (forall analyze apply validate,
       run_full_cycle (mkPhases (phase_test P) analyze apply validate) ctx w0 =
       (Ok [("test", r_test)], w1)) /\
    (keeps_generation_state w0 w1 ->
       let w' := snd (run_full_cycle P ctx w0) in
       current_generation (tracker w') = current_generation (tracker w0) /\
       history (tracker w') = history (tracker w0)).
Proof.
  intros P ctx r_test w0 w1 Htest Hsuccess.
  assert (truthy (get_default "success" (VBool false) r_test) = false) as Hfalsy
    by (rewrite (get_default_success_key _ _ Hsuccess); reflexivity).
  pose proof (run_full_cycle_abort P ctx w0 r_test w1 Htest Hfalsy) as Hrun.
  split; [exact Hrun|]. split.
  - intros analyze apply validate. apply run_full_cycle_abort; [exact Htest | exact Hfalsy].
  - intros Hkeeps. cbv zeta. rewrite Hrun. exact Hkeeps.
Qed.

Lemma failed_test_aborts_cycle_witness :
  let w0 := fresh_world "TestComponent" None "blueprints" ∅ in
  dict_keys <$> (match fst (run_full_cycle failing_test_phases [] w0) with
                 | Ok results => Some results
                 | Raise _ => None
                 end) = Some ["test"] /\
  current_generation (tracker (snd (run_full_cycle failing_test_phases [] w0))) = 0 /\
  history (tracker (snd (run_full_cycle failing_test_phases [] w0))) = [].
Proof.
  cbv zeta.
  destruct (failed_test_aborts_cycle failing_test_phases []
              [("success", VBool false); ("coverage", VInt 0)]
              (fresh_world "TestComponent" None "blueprints" ∅)
              (snd (phase_test failing_test_phases []
                      (fresh_world "TestComponent" None "blueprints" ∅)))
              eq_refl eq_refl) as (Hrun & _ & Hkeeps).
  destruct (Hkeeps (conj eq_refl eq_refl)) as [Hgen Hhist].
  split; [rewrite Hrun; reflexivity|]. split; [exact Hgen | exact Hhist].
Defined.

(** The values Python takes for false. *)
Lemma truthy_false_iff v :
  truthy v = false <->
  v = VNone \/ v = VBool false \/ v = VInt 0 \/ (exists q, v = VFloat q /\ Qnum q = 0) \/
  v = VStr "" \/ v = VList [] \/ v = VDict [].
Proof.
  split.
  - destruct v as [|b|z|q|s|l|d]; simpl; intros Hv.
    + auto.
    + destruct b; [discriminate | auto].
    + apply negb_false_iff, Z.eqb_eq in Hv. subst. auto 10.
    + apply negb_false_iff, Z.eqb_eq in Hv. right; right; right; left. eauto.
    + apply negb_false_iff, String.eqb_eq in Hv. subst. auto 10.
    + destruct l; [auto 10 | discriminate].
    + destruct d; [auto 10 | discriminate].
  - intros [-> | [-> | [-> | [(q & -> & Hq) | [-> | [-> | ->]]]]]]; try reflexivity.
    simpl. rewrite Hq. reflexivity.
Qed.

(** C9 (as amended). When the Test phase returns a mapping that has no
    [success] key, or whose [success] value is false in Python's sense
    ([False], [None], a zero, an empty string, list or dictionary),
    [run_full_cycle] treats it like an explicit failure: it stops and returns
    the mapping with the single key [test]. *)
Theorem falsy_success_aborts_cycle `{Host} :
  forall (P : PhaseMethods) (ctx r_test : PyDict) (w0 w1 : World),
    phase_test P ctx w0 = (Ok r_test, w1) ->
    (dict_get "success" r_test = None \/
     exists v, dict_get "success" r_test = Some v /\ truthy v = false) ->
    run_full_cycle P ctx w0 = (Ok [("test", r_test)], w1).
Proof.
  intros P ctx r_test w0 w1 Htest Hsuccess.
  apply run_full_cycle_abort; [exact Htest|].
  unfold get_default. destruct Hsuccess as [-> | (v & -> & Hv)]; [reflexivity | exact Hv].
Qed.

Lemma falsy_success_aborts_cycle_witness :
  run_full_cycle silent_test_phases [] (fresh_world "TestComponent" None "blueprints" ∅) =
  (Ok [("test", [("coverage", VInt 100)])],
   fresh_world "TestComponent" None "blueprints" ∅).
Proof.
  apply (falsy_success_aborts_cycle silent_test_phases [] [("coverage", VInt 100)]
           (fresh_world "TestComponent" None "blueprints" ∅)
           (fresh_world "TestComponent" None "blueprints" ∅) eq_refl).
  left. reflexivity.
Defined.

(** C9 as stated fails: a [success] value that is not [True] but counts as
    true, here the text ["false"], does not stop the cycle; all five phases
    run and the generation advances. *)
Lemma textual_false_does_not_abort :
  let w0 := fresh_world "TestComponent" None "blueprints" ∅ in
  fst (phase_test textual_test_phases [] w0) =
    Ok [("success", VStr "false"); ("coverage", VInt 100)] /\
  VStr "false" <> VBool true /\
  match fst (run_full_cycle textual_test_phases [] w0) with
  | Ok results => dict_keys results = all_phase_keys
  | Raise _ => False
  end /\
  current_generation (tracker (snd (run_full_cycle textual_test_phases [] w0))) = 1.
Proof.
  cbv zeta. split; [reflexivity|]. split; [discriminate|].
  split; vm_compute; reflexivity.
Qed.


(** * Further properties of GenerationTracker *)

Section MoreTrackerFacts.
Context `{Host}.

Lemma run_calls_app cs1 cs2 w : run_calls (cs1 ++ cs2) w = run_calls cs2 (run_calls cs1 w).
Proof. unfold run_calls. apply fold_left_app. Qed.

Lemma call_history_grows c w :
  exists k, history (tracker (call c w)) = history (tracker w) ++ k.
Proof.
  pose proof (call_generation_state c w) as Hc.
  destruct c; cbv zeta in Hc; destruct Hc as [_ ->];
    eauto using app_nil_r.
  all: exists []; symmetry; apply app_nil_r.
Qed.

Lemma run_calls_history_grows cs : forall w,
  exists k, history (tracker (run_calls cs w)) = history (tracker w) ++ k.
Proof.
  induction cs as [|c cs IH]; intros w.
  - exists []. symmetry; apply app_nil_r.
  - rewrite run_calls_cons. destruct (IH (call c w)) as [k2 ->].
    destruct (call_history_grows c w) as [k1 ->].
    exists (k1 ++ k2). symmetry; apply app_assoc.
Qed.

Lemma log_calls_cons e es :
  log_calls (e :: es) = CallLogMetric e.1.1 e.1.2 e.2 :: log_calls es.
Proof. reflexivity. Qed.

Lemma call_log_metric_tracker_eq name value tags w :
  tracker (call (CallLogMetric name value tags) w) =
  mkTracker (component_name (tracker w)) (current_generation (tracker w))
            (history (tracker w))
            (_current_metrics (tracker w) ++
               [GenerationMetric.mk name value (time_time (clock_reads w))
                                    (py_or tags (VDict []))])
            (_current_artifacts (tracker w))
            (_persistence_callback (tracker w)).
Proof. simpl. rewrite log_metric_eq. reflexivity. Qed.

(** What a run of [log_metric] calls does to the tracker. *)
Lemma run_calls_log_calls entries : forall w,
  let t := tracker w in
  let t' := tracker (run_calls (log_calls entries) w) in
  current_generation t' = current_generation t /\
  history t' = history t /\
  _current_artifacts t' = _current_artifacts t /\
  component_name t' = component_name t /\
  map metric_content (_current_metrics t') =
    map metric_content (_current_metrics t) ++ map logged_content entries.
Proof.
  induction entries as [|e es IH]; intros w; cbv zeta.
  - simpl. rewrite app_nil_r. auto.
  - rewrite log_calls_cons, run_calls_cons.
    destruct (IH (call (CallLogMetric e.1.1 e.1.2 e.2) w)) as (Hg & Hh & Ha & Hn & Hm).
    rewrite Hg, Hh, Ha, Hn, Hm, call_log_metric_tracker_eq. simpl.
    rewrite map_app, <- app_assoc. auto.
Qed.

(** Counter and numbering invariant of a tracker in use. *)
Lemma run_calls_gen_ids_bounded cs : forall w,
  0 <= current_generation (tracker w) ->
  StronglySorted Z.le (gen_ids (history (tracker w))) ->
  Forall (fun g => 0 <= g <= current_generation (tracker w))
         (gen_ids (history (tracker w))) ->
  let t := tracker (run_calls cs w) in
  0 <= current_generation t /\
  StronglySorted Z.le (gen_ids (history t)) /\
  Forall (fun g => 0 <= g <= current_generation t) (gen_ids (history t)).
Proof.
  induction cs as [|c cs IH]; intros w H0 Hs Hb; [cbv zeta; auto|].
  rewrite run_calls_cons.
  pose proof (call_generation_state c w) as Hc.
  destruct c; cbv zeta in Hc; destruct Hc as [Hg Hh]; apply IH; rewrite ?Hg, ?Hh;
    try exact Hs; try exact Hb; try lia.
  - eapply Forall_impl; [exact Hb|]. simpl; intros; lia.
  - unfold gen_ids. rewrite map_app. apply StronglySorted_app_2.
    + intros a b Ha Hb'. simpl in Hb'. apply list_elem_of_singleton in Hb'; subst b.
      rewrite Forall_forall in Hb. apply Hb, Ha.
    + exact Hs.
    + repeat constructor.
  - unfold gen_ids. rewrite map_app. apply Forall_app. split; [exact Hb|].
    repeat constructor; simpl; lia.
Qed.

End MoreTrackerFacts.

(** X1. History is append-only: whatever calls follow, the snapshots
    already in the history stay where they are, unchanged. *)
Theorem history_is_append_only `{Host} :
  forall (cs : list TrackerCall) (w : World),
    history (tracker w) `prefix_of` history (tracker (run_calls cs w)) /\
    forall i snap,
      history (tracker w) !! i = Some snap ->
      history (tracker (run_calls cs w)) !! i = Some snap.
Proof.
  intros cs w. destruct (run_calls_history_grows cs w) as [k Hk]. split.
  - exists k. exact Hk.
  - intros i snap Hi. rewrite Hk. apply lookup_app_l_Some, Hi.
Qed.

Lemma history_is_append_only_witness :
  history (tracker (run_calls two_generations
                              (fresh_world "TestComponent" None "blueprints" ∅))) !! 0%nat
  = history (tracker (run_calls (take 4 two_generations)
                                (fresh_world "TestComponent" None "blueprints" ∅))) !! 0%nat.
Proof.
  destruct (history (tracker (run_calls (take 4 two_generations)
                                        (fresh_world "TestComponent" None "blueprints" ∅)))
              !! 0%nat) as [snap|] eqn:Hsnap; [|vm_compute in Hsnap; discriminate Hsnap].
  destruct (history_is_append_only (drop 4 two_generations)
              (run_calls (take 4 two_generations)
                         (fresh_world "TestComponent" None "blueprints" ∅))) as [_ Hkeep].
  rewrite <- (Hkeep 0%nat snap Hsnap), <- run_calls_app, take_drop. reflexivity.
Defined.

(** X2. A snapshot holds exactly the metrics logged since the last
    [start_next_generation], in logging order, each with its tags
    defaulted to [{}]: what the working set held before the start is
    discarded, and no artifact survives the start either. *)
Theorem snapshot_holds_metrics_since_start `{Host} :
  forall (entries : list (string * PyVal * PyVal)) (status : ComponentStatus)
         (notes : PyVal) (w : World),
    let w' := run_calls (CallStart :: log_calls entries ++ [CallFinalize status notes]) w in
    exists snap,
      history (tracker w') = history (tracker w) ++ [snap] /\
      GenerationSnapshot.gen_id snap = current_generation (tracker w) + 1 /\
      map metric_content (GenerationSnapshot.metrics snap) = map logged_content entries /\
      GenerationSnapshot.artifacts snap = [] /\
      GenerationSnapshot.status snap = status /\
      GenerationSnapshot.changelog snap = py_or notes (VList []) /\
      GenerationSnapshot.component_name snap = component_name (tracker w).
Proof.
  intros entries status notes w w'. unfold w'.
  rewrite run_calls_cons, run_calls_app.
  destruct (run_calls_log_calls entries (call CallStart w)) as (Hg & Hh & Ha & Hn & Hm).
  set (w2 := run_calls (log_calls entries) (call CallStart w)) in *.
  exists (sealed_snapshot status notes w2).
  change (run_calls [CallFinalize status notes] w2)
    with (call (CallFinalize status notes) w2).
  rewrite call_finalize_tracker. simpl.
  rewrite Hh, Hg, Ha, Hn, Hm. repeat split; reflexivity.
Qed.

(** X3. In a tracker used since its construction the [gen_id]s of the
    history never decrease and lie between 0 and [current_generation]. *)
Theorem gen_ids_never_exceed_counter `{Host} :
  forall (name root : string) (cb : option Callback) (fs : gmap string string)
         (cs : list TrackerCall),
    let t := tracker (run_calls cs (fresh_world name cb root fs)) in
    StronglySorted Z.le (gen_ids (history t)) /\
    Forall (fun g => 0 <= g <= current_generation t) (gen_ids (history t)).
Proof.
  intros name root cb fs cs t.
  destruct (run_calls_gen_ids_bounded cs (fresh_world name cb root fs)
              ltac:(simpl; lia) ltac:(constructor) ltac:(constructor))
    as (_ & Hs & Hb).
  split; assumption.
Qed.

Section DictFacts.
Context {V : Type}.




End DictFacts.



Section PersistenceFacts.
Context `{Host}.





End PersistenceFacts.


(** * Further properties of GenerationalBlueprintManager *)

Section MoreBlueprintFacts.
Context `{Host}.

Lemma universal_newlines_has_no_cr_aux s :
  has_cr (universal_newlines s) = false /\
  forall c, has_cr (universal_newlines (String c s)) = false.
Proof.
  induction s as [|a s [IH1 IH2]].
  - split; [reflexivity|]. intros c. simpl. destruct (Ascii.eqb c CR) eqn:E; simpl.
    + reflexivity.
    + rewrite E. reflexivity.
  - split; [apply IH2|]. intros c.
    change (universal_newlines (String c (String a s))) with
      (if Ascii.eqb c CR
       then String LF (if Ascii.eqb a LF then universal_newlines s
                       else universal_newlines (String a s))
       else String c (universal_newlines (String a s))).
    destruct (Ascii.eqb c CR) eqn:E.
    + destruct (Ascii.eqb a LF); simpl has_cr at 1; [exact IH1 | apply IH2].
    + simpl has_cr at 1. rewrite E. apply IH2.
Qed.

Lemma universal_newlines_has_no_cr s : has_cr (universal_newlines s) = false.
Proof. apply universal_newlines_has_no_cr_aux. Qed.

Lemma stored_after_save name content tag w p w' :
  save_blueprint name content tag w = (Ok p, w') ->
  forall name' tag',
    stored_blueprint name' tag' w' =
    if decide (blueprint_node name tag w = blueprint_node name' tag' w)
    then Some content
    else stored_blueprint name' tag' w.
Proof.
  intros Hsave name' tag'. apply save_blueprint_ok in Hsave as (_ & -> & _).
  unfold stored_blueprint. rewrite blueprint_node_with_files. simpl.
  rewrite lookup_insert. reflexivity.
Qed.

(** What [load_blueprint] returns and raises depends on the world through
    the stored text only. *)
Lemma load_blueprint_outcome name tag w w' :
  blueprint_file name tag w' = blueprint_file name tag w ->
  stored_blueprint name tag w' = stored_blueprint name tag w ->
  fst (load_blueprint name tag w') = fst (load_blueprint name tag w).
Proof.
  intros Hfile Hstored. rewrite !load_blueprint_eq. simpl. rewrite Hfile, Hstored.
  reflexivity.
Qed.

Lemma diff_blueprints_eq name v1 v2 w :
  diff_blueprints name v1 v2 w =
  (match fs_access (blueprint_file name v1 w) with
   | Refused e => Raise e
   | Writable | ReadOnly _ =>
       match fs_access (blueprint_file name v2 w) with
       | Refused e => Raise e
       | Writable | ReadOnly _ =>
           Ok match universal_newlines <$> stored_blueprint name v1 w,
                    universal_newlines <$> stored_blueprint name v2 w with
              | Some text1, Some text2 =>
                  unified_diff (str_splitlines text1) (str_splitlines text2)
                               (name +:+ ":" +:+ v1) (name +:+ ":" +:+ v2)
              | _, _ => ["Error: One or both versions not found."]
              end
       end
   end, w).
Proof.
  unfold diff_blueprints, bind. rewrite !load_blueprint_eq.
  destruct (fs_access (blueprint_file name v1 w));
    destruct (fs_access (blueprint_file name v2 w)); try reflexivity;
    destruct (stored_blueprint name v1 w); destruct (stored_blueprint name v2 w);
    reflexivity.
Qed.

End MoreBlueprintFacts.

(** X6. Last write wins: saving twice under one name and tag leaves the
    files exactly as the second save alone would, and the version then
    loads as the second content. *)
Theorem save_blueprint_overwrites `{Host} :
  forall (name tag first second p1 p2 : string) (w w1 w2 : World),
    save_blueprint name first tag w = (Ok p1, w1) ->
    save_blueprint name second tag w1 = (Ok p2, w2) ->
    save_blueprint name second tag w = (Ok p2, w2) /\
    p1 = p2 /\
    load_blueprint name tag w2 = (Ok (Some (universal_newlines second)), w2).
Proof.
  intros name tag first second p1 p2 w w1 w2 Hs1 Hs2.
  pose proof (load_after_save _ _ _ _ _ _ Hs2) as Hload.
  apply save_blueprint_ok in Hs1 as (-> & -> & Hacc).
  apply save_blueprint_ok in Hs2 as (-> & -> & _).
  split; [|split; [reflexivity | exact Hload]].
  rewrite save_blueprint_eq, Hacc, blueprint_file_with_files, blueprint_node_with_files.
  f_equal. unfold with_files. simpl. rewrite insert_insert_eq. reflexivity.
Qed.

Lemma save_blueprint_overwrites_witness :
  let w0 := fresh_world "TestComponent" None "blueprints" ∅ in
  let w1 := snd (save_blueprint "plan" "action: run" "v1" w0) in
  let w2 := snd (save_blueprint "plan" "action: walk" "v1" w1) in
  load_blueprint "plan" "v1" w2 = (Ok (Some "action: walk"), w2).
Proof.
  cbv zeta.
  destruct (save_blueprint_overwrites "plan" "v1" "action: run" "action: walk"
              "blueprints/plan_vv1.kl" "blueprints/plan_vv1.kl"
              (fresh_world "TestComponent" None "blueprints" ∅)
              (snd (save_blueprint "plan" "action: run" "v1"
                      (fresh_world "TestComponent" None "blueprints" ∅)))
              (snd (save_blueprint "plan" "action: walk" "v1"
                      (snd (save_blueprint "plan" "action: run" "v1"
                              (fresh_world "TestComponent" None "blueprints" ∅))))))
    as (_ & _ & Hload).
  - vm_compute. reflexivity.
  - vm_compute. reflexivity.
  - exact Hload.
Defined.

(** X7. A save changes one file only.  A version kept in another file is
    stored and loads as before; a version whose path leads to the file just
    written, also through another path string (one with [..], say), now
    holds the new content; no other file, and nothing of the tracker, the
    phase marker or the clock, changes. *)
Theorem save_blueprint_keeps_other_versions `{Host} :
  forall (name tag content p other other_tag : string) (w w' : World),
    save_blueprint name content tag w = (Ok p, w') ->
    (blueprint_node other other_tag w <> blueprint_node name tag w ->
       stored_blueprint other other_tag w' = stored_blueprint other other_tag w /\
       fst (load_blueprint other other_tag w') = fst (load_blueprint other other_tag w)) /\
    (blueprint_node other other_tag w = blueprint_node name tag w ->
       stored_blueprint other other_tag w' = Some content) /\
    (forall file, file <> blueprint_node name tag w -> files w' !! file = files w !! file) /\
    tracker w' = tracker w /\
    current_phase w' = current_phase w /\
    clock_reads w' = clock_reads w.
Proof.
  intros name tag content p other other_tag w w' Hsave.
  pose proof (stored_after_save _ _ _ _ _ _ Hsave other other_tag) as Hstored.
  apply save_blueprint_ok in Hsave as (_ & -> & _).
  split; [|split; [|split]].
  - intros Hne. destruct (decide _) as [Heq|_] in Hstored; [congruence|].
    split; [exact Hstored|].
    apply load_blueprint_outcome; [reflexivity | exact Hstored].
  - intros Heq. destruct (decide _) as [_|Hne] in Hstored; [exact Hstored | congruence].
  - intros file Hfile. simpl. apply lookup_insert_ne. congruence.
  - repeat split; reflexivity.
Qed.

Lemma save_blueprint_keeps_other_versions_witness :
  let w0 := fresh_world "TestComponent" None "blueprints" ∅ in
  let w1 := snd (save_blueprint "a" "old" "1" w0) in
  let w2 := snd (save_blueprint "b" "other" "1" w1) in
  let w3 := snd (save_blueprint "../blueprints/a" "new" "1" w2) in
  blueprint_file "../blueprints/a" "1" w2 <> blueprint_file "a" "1" w2 /\
  stored_blueprint "a" "1" w3 = Some "new" /\
  stored_blueprint "b" "1" w3 = Some "other".
Proof.
  cbv zeta.
  set (w2 := snd (save_blueprint "b" "other" "1"
                    (snd (save_blueprint "a" "old" "1"
                            (fresh_world "TestComponent" None "blueprints" ∅))))).
  assert (Hsave : save_blueprint "../blueprints/a" "new" "1" w2 =
                  (Ok "blueprints/../blueprints/a_v1.kl",
                   snd (save_blueprint "../blueprints/a" "new" "1" w2)))
    by (vm_compute; reflexivity).
  split; [vm_compute; discriminate|]. split.
  - destruct (save_blueprint_keeps_other_versions "../blueprints/a" "1" "new"
                "blueprints/../blueprints/a_v1.kl" "a" "1" w2 _ Hsave) as (_ & Hsame & _).
    apply Hsame. vm_compute. reflexivity.
  - destruct (save_blueprint_keeps_other_versions "../blueprints/a" "1" "new"
                "blueprints/../blueprints/a_v1.kl" "b" "1" w2 _ Hsave) as (Hother & _).
    destruct Hother as [Hstored _]; [vm_compute; discriminate|].
    rewrite Hstored. vm_compute. reflexivity.
Defined.

(** X8. What [load_blueprint] returns holds no carriage return, so a
    loaded text saved again, under any name and tag, loads back
    identical. *)
Theorem loaded_text_round_trips `{Host} :
  forall (name tag text : string) (w w' : World),
    load_blueprint name tag w = (Ok (Some text), w') ->
    has_cr text = false /\
    forall (name' tag' p : string) (w1 w2 : World),
      save_blueprint name' text tag' w1 = (Ok p, w2) ->
      load_blueprint name' tag' w2 = (Ok (Some text), w2).
Proof.
  intros name tag text w w' Hload.
  assert (has_cr text = false) as Hcr.
  { rewrite load_blueprint_eq in Hload.
    destruct (fs_access _); try discriminate;
      (destruct (stored_blueprint name tag w) as [stored|]; [|discriminate]);
      injection Hload as <- _; apply universal_newlines_has_no_cr. }
  split; [exact Hcr|].
  intros name' tag' p w1 w2 Hsave.
  rewrite (load_after_save _ _ _ _ _ _ Hsave), (universal_newlines_no_cr _ Hcr).
  reflexivity.
Qed.

Lemma loaded_text_round_trips_witness :
  let w0 := fresh_world "TestComponent" None "blueprints" ∅ in
  let w1 := snd (save_blueprint "P" text_with_cr "v1" w0) in
  let text := String "a" (String LF (String "b" EmptyString)) in
  let w2 := snd (save_blueprint "P" text "v2" w1) in
  load_blueprint "P" "v2" w2 = (Ok (Some text), w2).
Proof.
  cbv zeta.
  destruct (loaded_text_round_trips "P" "v1"
              (String "a" (String LF (String "b" EmptyString)))
              (snd (save_blueprint "P" text_with_cr "v1"
                      (fresh_world "TestComponent" None "blueprints" ∅)))
              (snd (save_blueprint "P" text_with_cr "v1"
                      (fresh_world "TestComponent" None "blueprints" ∅))))
    as [_ Hagain].
  - vm_compute. reflexivity.
  - apply (Hagain "P" "v2" "blueprints/P_vv2.kl"
             (snd (save_blueprint "P" text_with_cr "v1"
                     (fresh_world "TestComponent" None "blueprints" ∅)))).
    vm_compute. reflexivity.
Defined.

(** X9. [load_blueprint] and [diff_blueprints] only read: whether they
    return or raise, they leave the world as it was.  [load_blueprint]
    raises exactly when the file system refuses the path of the version,
    and [diff_blueprints], which loads the first version and then the
    second, raises what the first refused path raises; on accepted paths
    both return. *)
Theorem blueprint_queries_only_read `{Host} :
  forall (name v1 v2 : string) (w : World),
    snd (load_blueprint name v1 w) = w /\
    snd (diff_blueprints name v1 v2 w) = w /\
    (forall e, fs_access (blueprint_file name v1 w) = Refused e ->
       fst (load_blueprint name v1 w) = Raise e /\
       fst (diff_blueprints name v1 v2 w) = Raise e) /\
    (path_refused (blueprint_file name v1 w) = false ->
       fst (load_blueprint name v1 w) =
         Ok (universal_newlines <$> stored_blueprint name v1 w) /\
       (forall e, fs_access (blueprint_file name v2 w) = Refused e ->
          fst (diff_blueprints name v1 v2 w) = Raise e) /\
       (path_refused (blueprint_file name v2 w) = false ->
          exists lines, fst (diff_blueprints name v1 v2 w) = Ok lines)).
Proof.
  intros name v1 v2 w. rewrite diff_blueprints_eq, load_blueprint_eq. unfold path_refused.
  split; [reflexivity|]. split; [reflexivity|]. split.
  - intros e ->. split; reflexivity.
  - intros Hp1. cbn [fst].
    destruct (fs_access (blueprint_file name v1 w)); try discriminate.
    all: split; [reflexivity|]; split;
      [intros e2 ->; reflexivity
      |intros Hp2; destruct (fs_access (blueprint_file name v2 w)); try discriminate; eauto].
Qed.

Lemma blueprint_queries_only_read_witness :
  let w0 := fresh_world "TestComponent" None "blueprints" ∅ in
  let w1 := snd (save_blueprint "plan" "action: run" "v1" w0) in
  let w2 := snd (save_blueprint "plan" "action: walk" "v2" w1) in
  fst (load_blueprint "plan" "v1" w2) = Ok (Some "action: run") /\
  snd (diff_blueprints "plan" "v1" "v2" w2) = w2 /\
  exists lines, fst (diff_blueprints "plan" "v1" "v2" w2) = Ok lines.
Proof.
  cbv zeta.
  destruct (blueprint_queries_only_read "plan" "v1" "v2"
              (snd (save_blueprint "plan" "action: walk" "v2"
                      (snd (save_blueprint "plan" "action: run" "v1"
                              (fresh_world "TestComponent" None "blueprints" ∅))))))
    as (_ & Hsame & _ & Haccepted).
  destruct Haccepted as (Hload & _ & Hdiff); [vm_compute; reflexivity|].
  split; [rewrite Hload; vm_compute; reflexivity|]. split; [exact Hsame|].
  apply Hdiff. vm_compute. reflexivity.
Defined.


(** * Further properties of GenerationalImprovementLoop *)

Section MoreLoopFacts.
Context `{Host}.

(** [phase_advance] on any Apply result whose changes can be iterated. *)
Lemma phase_advance_iterable_eq r w items :
  py_iter (get_default "changes" (VList []) r) = Ok items ->
  phase_advance r w =
  let snap :=
    GenerationSnapshot.mk
      (current_generation (tracker w) + 1) (component_name (tracker w))
      (datetime_now_isoformat (clock_reads w + length items)) STABLE
      (applied_change_metrics (clock_reads w) items) []
      (advance_changelog r)
      (GenerationSnapshot.gen_id <$> last (history (tracker w))) in
  (match persistence_outcome (tracker w) snap with
   | Ok _ => Ok (advance_result w items)
   | Raise e => Raise e
   end,
   mkWorld (mkTracker (component_name (tracker w))
                      (current_generation (tracker w) + 1)
                      (history (tracker w) ++ [snap])
                      (applied_change_metrics (clock_reads w) items)
                      []
                      (_persistence_callback (tracker w)))
           (blueprint_manager w) ADVANCE (files w)
           (S (clock_reads w + length items))
           (persisted w ++ delivered (tracker w) snap)).
Proof.
  intros Hiter. cbv zeta. unfold phase_advance.
  unfold bind at 1. unfold _switch_phase, set_phase.
  unfold bind at 1. rewrite start_next_generation_eq.
  unfold bind at 1. unfold lift_outcome. rewrite Hiter.
  unfold bind at 1. rewrite for_each_log_applied_changes.
  unfold bind at 1. rewrite finalize_generation_eq.
  unfold sealed_snapshot, advance_result, advance_changelog, ret, persistence_outcome,
    delivered.
  cbn -[Z.add datetime_now_isoformat applied_change_metrics snapshot_payload py_or
        get_default to_json_raises].
  destruct (_persistence_callback (tracker w)) as [cb|]; [|reflexivity].
  match goal with |- context [to_json_raises ?snap] => destruct (to_json_raises snap) end;
    [reflexivity|].
  match goal with |- context [cb ?p] => destruct (cb p) end; reflexivity.
Qed.

Lemma phase_advance_iterable r w items :
  py_iter (get_default "changes" (VList []) r) = Ok items ->
  let w' := snd (phase_advance r w) in
  let snap :=
    GenerationSnapshot.mk
      (current_generation (tracker w) + 1) (component_name (tracker w))
      (datetime_now_isoformat (clock_reads w + length items)) STABLE
      (applied_change_metrics (clock_reads w) items) []
      (advance_changelog r)
      (GenerationSnapshot.gen_id <$> last (history (tracker w))) in
  history (tracker w') = history (tracker w) ++ [snap] /\
  current_generation (tracker w') = current_generation (tracker w) + 1 /\
  _persistence_callback (tracker w') = _persistence_callback (tracker w) /\
  current_phase w' = ADVANCE /\
  fst (phase_advance r w) =
    match persistence_outcome (tracker w) snap with
    | Ok _ => Ok (advance_result w items)
    | Raise e => Raise e
    end.
Proof.
  intros Hiter. cbv zeta. rewrite (phase_advance_iterable_eq r w items Hiter).
  repeat split; reflexivity.
Qed.

(** [phase_advance] on an Apply result whose changes cannot be iterated. *)
Lemma phase_advance_not_iterable r w e :
  py_iter (get_default "changes" (VList []) r) = Raise e ->
  phase_advance r w =
  (Raise e,
   mkWorld (mkTracker (component_name (tracker w)) (current_generation (tracker w) + 1)
                      (history (tracker w)) [] [] (_persistence_callback (tracker w)))
           (blueprint_manager w) ADVANCE (files w) (clock_reads w) (persisted w)).
Proof.
  intros Hiter. unfold phase_advance.
  unfold bind at 1. unfold _switch_phase, set_phase.
  unfold bind at 1. rewrite start_next_generation_eq.
  unfold bind at 1. unfold lift_outcome. rewrite Hiter. reflexivity.
Qed.

Lemma applied_change_metrics_names now items :
  Forall (fun m => GenerationMetric.name m = "applied_change")
         (applied_change_metrics now items).
Proof.
  revert now; induction items as [|c cs IH]; intros now; simpl; constructor; auto.
Qed.

(** What [phase_advance] does to the history, whatever it is given. *)
Lemma phase_advance_history r w :
  history (tracker (snd (phase_advance r w))) = history (tracker w) \/
  exists snap,
    history (tracker (snd (phase_advance r w))) = history (tracker w) ++ [snap] /\
    GenerationSnapshot.gen_id snap = current_generation (tracker w) + 1 /\
    Forall (fun m => GenerationMetric.name m = "applied_change")
           (GenerationSnapshot.metrics snap).
Proof.
  destruct (py_iter (get_default "changes" (VList []) r)) as [items|e] eqn:Hiter.
  - right. destruct (phase_advance_iterable r w items Hiter) as (Hh & _).
    eexists. split; [exact Hh|]. split; [reflexivity|].
    apply applied_change_metrics_names.
  - left. rewrite (phase_advance_not_iterable r w e Hiter). reflexivity.
Qed.

Lemma phase_advance_counter r w :
  current_generation (tracker (snd (phase_advance r w))) =
  current_generation (tracker w) + 1.
Proof.
  destruct (py_iter (get_default "changes" (VList []) r)) as [items|e] eqn:Hiter.
  - destruct (phase_advance_iterable r w items Hiter) as (_ & Hg & _). exact Hg.
  - rewrite (phase_advance_not_iterable r w e Hiter). reflexivity.
Qed.

End MoreLoopFacts.

Section DefaultPhaseFacts.
Context `{Host}.

Lemma default_phase_test_eq ctx w :
  default_phase_test ctx w =
  (Ok default_test_result,
   mkWorld (mkTracker (component_name (tracker w)) (current_generation (tracker w))
                      (history (tracker w))
                      (_current_metrics (tracker w) ++
                         [GenerationMetric.mk "phase_test_duration_ms" (VInt 120)
                                              (time_time (clock_reads w)) (VDict [])])
                      (_current_artifacts (tracker w))
                      (_persistence_callback (tracker w)))
           (blueprint_manager w) TEST (files w) (S (clock_reads w)) (persisted w)).
Proof.
  unfold default_phase_test, bind, _switch_phase, set_phase.
  cbn [fst snd]. rewrite log_metric_eq. reflexivity.
Qed.

Lemma default_phase_analyze_eq r w :
  default_phase_analyze r w =
  (match py_lt_float (get_default "coverage" VNone r) float_0_9 with
   | Ok low =>
       Ok [("recommendations",
            VList (if low then [VStr "optimize_query_speed"] else []));
           ("priority", VStr "HIGH")]
   | Raise e => Raise e
   end,
   entered ANALYZE w).
Proof.
  unfold default_phase_analyze, bind, _switch_phase, set_phase, lift_outcome, entered.
  simpl. destruct (py_lt_float _ _); reflexivity.
Qed.

Lemma default_phase_apply_eq r ctx w :
  default_phase_apply r ctx w = (Ok default_apply_result, entered APPLY w).
Proof. reflexivity. Qed.

Lemma py_lt_float_number v x :
  is_number v = true -> exists low, py_lt_float v x = Ok low.
Proof. destruct v; simpl; intros Hn; try discriminate; eauto. Qed.

Lemma py_lt_float_not_number v x :
  is_number v = false -> py_lt_float v x = Raise TypeError.
Proof. destruct v; simpl; intros Hn; try discriminate; reflexivity. Qed.

Lemma int_below_float_0_9 z :
  py_lt_float (VInt z) float_0_9 = Ok (z <=? 0).
Proof.
  simpl. f_equal. destruct (Qlt_le_dec (inject_Z z) float_0_9) as [Hlt|Hle].
  - unfold Qlt, float_0_9 in Hlt. simpl in Hlt. symmetry. apply Z.leb_le. lia.
  - unfold Qle, float_0_9 in Hle. simpl in Hle. symmetry. apply Z.leb_gt. lia.
Qed.

(** One cycle of the default phases, as an equation. *)
Lemma default_cycle_eq ctx w :
  callback_returns (tracker w) ->
  let w3 := entered APPLY (entered ANALYZE (snd (default_phase_test ctx w))) in
  let changes := [VStr "Ran optimizer"] in
  let w' := snd (default_phase_validate (advance_result w3 changes)
                   (advanced_world w3 changes)) in
  run_full_cycle default_phases ctx w =
    (Ok [("test", default_test_result); ("analyze", default_analyze_result);
         ("apply", default_apply_result); ("advance", advance_result w3 changes);
         ("validate", default_validate_result)], w') /\
  current_generation (tracker w') = current_generation (tracker w) + 1 /\
  history (tracker w') = history (tracker w) ++ [advance_snapshot w3 changes] /\
  _persistence_callback (tracker w') = _persistence_callback (tracker w).
Proof.
  intros Hcb. cbv zeta.
  set (w1 := snd (default_phase_test ctx w)).
  set (w3 := entered APPLY (entered ANALYZE w1)).
  assert (callback_returns (tracker w3)) as Hcb3
    by (unfold w3, w1; rewrite default_phase_test_eq; exact Hcb).
  assert (changes_serialise (tracker w3) [VStr "Ran optimizer"]) as Hser
    by (unfold changes_serialise; destruct (_persistence_callback (tracker w3)); reflexivity).
  pose proof (phase_advance_ok default_apply_result w3 [VStr "Ran optimizer"] eq_refl Hcb3
                Hser) as Hadvance.
  split.
  - apply (run_full_cycle_complete default_phases ctx w default_test_result w1
             default_analyze_result (entered ANALYZE w1) default_apply_result w3
             (advance_result w3 [VStr "Ran optimizer"])
             (advanced_world w3 [VStr "Ran optimizer"])
             default_validate_result _); try reflexivity.
    exact Hadvance.
  - repeat split; reflexivity.
Qed.

End DefaultPhaseFacts.

(** X10. With the default phases a cycle always completes when the
    persistence callback, if any, returns: the five results are the fixed
    mappings of the default phases (0.88 is below 0.9, so Analyze always
    recommends [optimize_query_speed]), the phase marker ends at VALIDATE,
    the counter grows by 1 and one snapshot with changelog
    [["Ran optimizer"]] and the single metric [applied_change] is sealed;
    the [validation_success] metric is left in the open working set. *)
Theorem default_cycle_completes `{Host} :
  forall (ctx : PyDict) (w : World),
    callback_returns (tracker w) ->
    exists r_advance w' snap,
      run_full_cycle default_phases ctx w =
        (Ok [("test", default_test_result); ("analyze", default_analyze_result);
             ("apply", default_apply_result); ("advance", r_advance);
             ("validate", default_validate_result)], w') /\
      dict_get "gen_id" r_advance = Some (VInt (current_generation (tracker w) + 1)) /\
      current_phase w' = VALIDATE /\
      current_generation (tracker w') = current_generation (tracker w) + 1 /\
      history (tracker w') = history (tracker w) ++ [snap] /\
      GenerationSnapshot.gen_id snap = current_generation (tracker w) + 1 /\
      GenerationSnapshot.changelog snap = VList [VStr "Ran optimizer"] /\
      map metric_content (GenerationSnapshot.metrics snap) =
        [("applied_change", VInt 1, VDict [("desc", VStr "Ran optimizer")])] /\
      map metric_content (_current_metrics (tracker w')) =
        [("applied_change", VInt 1, VDict [("desc", VStr "Ran optimizer")]);
         ("validation_success", VInt 1, VDict [])] /\
      _persistence_callback (tracker w') = _persistence_callback (tracker w).
Proof.
  intros ctx w Hcb.
  destruct (default_cycle_eq ctx w Hcb) as (Hrun & Hg & Hh & Hcb').
  set (w3 := entered APPLY (entered ANALYZE (snd (default_phase_test ctx w)))) in *.
  exists (advance_result w3 [VStr "Ran optimizer"]).
  exists (snd (default_phase_validate (advance_result w3 [VStr "Ran optimizer"])
                 (advanced_world w3 [VStr "Ran optimizer"]))).
  exists (advance_snapshot w3 [VStr "Ran optimizer"]).
  split; [exact Hrun|].
  split; [unfold w3; rewrite default_phase_test_eq; reflexivity|].
  split; [reflexivity|].
  split; [exact Hg|]. split; [exact Hh|].
  split; [unfold w3; rewrite default_phase_test_eq; reflexivity|].
  split; [reflexivity|]. split; [reflexivity|].
  split; [rewrite default_phase_validate_eq; reflexivity | exact Hcb'].
Qed.

Lemma default_cycle_completes_witness :
  exists w',
    snd (run_full_cycle default_phases [("target", VStr "core_module")]
           (fresh_world "DemoComponent" None "./data/blueprints" ∅)) = w' /\
    current_generation (tracker w') = 1 /\
    current_phase w' = VALIDATE.
Proof.
  destruct (default_cycle_completes [("target", VStr "core_module")]
              (fresh_world "DemoComponent" None "./data/blueprints" ∅) I)
    as (r_advance & w' & snap & Hrun & _ & Hphase & Hgen & _).
  exists w'. rewrite Hrun. split; [reflexivity|]. split; [exact Hgen | exact Hphase].
Defined.

(** X11. The default Analyze phase compares the Test result's [coverage]
    with 0.9: without a [coverage] key, or with one that is not a number,
    it raises [TypeError] (after marking the phase); with a number it
    returns, recommending [optimize_query_speed] exactly when the number is
    below 0.9, which for an integer means 0 or less. *)
Theorem default_analyze_needs_numeric_coverage `{Host} :
  forall (r : PyDict) (w : World),
    let coverage := get_default "coverage" VNone r in
    (dict_get "coverage" r = None -> is_number coverage = false) /\
    (is_number coverage = false ->
       default_phase_analyze r w = (Raise TypeError, entered ANALYZE w)) /\
    (is_number coverage = true ->
       exists low,
         py_lt_float coverage float_0_9 = Ok low /\
         default_phase_analyze r w =
           (Ok [("recommendations",
                 VList (if low then [VStr "optimize_query_speed"] else []));
                ("priority", VStr "HIGH")],
            entered ANALYZE w)) /\
    (forall z, coverage = VInt z ->
       default_phase_analyze r w =
         (Ok [("recommendations",
               VList (if z <=? 0 then [VStr "optimize_query_speed"] else []));
              ("priority", VStr "HIGH")],
          entered ANALYZE w)).
Proof.
  intros r w. cbv zeta. split; [|split; [|split]].
  - unfold get_default. intros ->. reflexivity.
  - intros Hn. rewrite default_phase_analyze_eq, (py_lt_float_not_number _ _ Hn).
    reflexivity.
  - intros Hn. destruct (py_lt_float_number _ float_0_9 Hn) as [low Hlow].
    exists low. split; [exact Hlow|]. rewrite default_phase_analyze_eq, Hlow. reflexivity.
  - intros z Hz. rewrite default_phase_analyze_eq, Hz, int_below_float_0_9. reflexivity.
Qed.

Lemma default_analyze_needs_numeric_coverage_witness :
  default_phase_analyze [("success", VBool true)]
    (fresh_world "TestComponent" None "blueprints" ∅)
  = (Raise TypeError, entered ANALYZE (fresh_world "TestComponent" None "blueprints" ∅)) /\
  default_phase_analyze [("success", VBool true); ("coverage", VInt 100)]
    (fresh_world "TestComponent" None "blueprints" ∅)
  = (Ok [("recommendations", VList []); ("priority", VStr "HIGH")],
     entered ANALYZE (fresh_world "TestComponent" None "blueprints" ∅)).
Proof.
  split.
  - destruct (default_analyze_needs_numeric_coverage [("success", VBool true)]
                (fresh_world "TestComponent" None "blueprints" ∅)) as (_ & Hraise & _).
    apply Hraise. reflexivity.
  - destruct (default_analyze_needs_numeric_coverage
                [("success", VBool true); ("coverage", VInt 100)]
                (fresh_world "TestComponent" None "blueprints" ∅)) as (_ & _ & _ & Hint).
    apply (Hint 100). reflexivity.
Defined.

(** X12. An exception in a phase ends the cycle with that exception and the
    world the phase left: no later phase runs.  When Test, Analyze or Apply
    raises, ADVANCE is never reached; when Validate raises, the generation
    that ADVANCE sealed stays sealed. *)
Theorem phase_exception_ends_cycle `{Host} :
  forall (P : PhaseMethods) (ctx : PyDict) (w0 : World),
    (forall e w1,
       phase_test P ctx w0 = (Raise e, w1) ->
       run_full_cycle P ctx w0 = (Raise e, w1)) /\
    (forall r_test w1,
       phase_test P ctx w0 = (Ok r_test, w1) ->
       truthy (get_default "success" (VBool false) r_test) = true ->
       (forall e w2,
          phase_analyze P r_test w1 = (Raise e, w2) ->
          run_full_cycle P ctx w0 = (Raise e, w2)) /\
       (forall r_analyze w2,
          phase_analyze P r_test w1 = (Ok r_analyze, w2) ->
          (forall e w3,
             phase_apply P r_analyze ctx w2 = (Raise e, w3) ->
             run_full_cycle P ctx w0 = (Raise e, w3)) /\
          (forall r_apply w3,
             phase_apply P r_analyze ctx w2 = (Ok r_apply, w3) ->
             (forall e w4,
                phase_advance r_apply w3 = (Raise e, w4) ->
                run_full_cycle P ctx w0 = (Raise e, w4)) /\
             (forall r_advance w4 e w5,
                phase_advance r_apply w3 = (Ok r_advance, w4) ->
                phase_validate P r_advance w4 = (Raise e, w5) ->
                run_full_cycle P ctx w0 = (Raise e, w5))))).
Proof.
  intros P ctx w0. split.
  - intros e w1 Htest. unfold run_full_cycle, bind. rewrite Htest. reflexivity.
  - intros r_test w1 Htest Htruthy. split.
    + intros e w2 Han. unfold run_full_cycle, bind. rewrite Htest. simpl.
      rewrite Htruthy. simpl. rewrite Han. reflexivity.
    + intros r_analyze w2 Han. split.
      * intros e w3 Hap. unfold run_full_cycle, bind. rewrite Htest. simpl.
        rewrite Htruthy. simpl. rewrite Han, Hap. reflexivity.
      * intros r_apply w3 Hap. split.
        -- intros e w4 Hadv. unfold run_full_cycle, bind. rewrite Htest. simpl.
           rewrite Htruthy. simpl. rewrite Han, Hap, Hadv. reflexivity.
        -- intros r_advance w4 e w5 Hadv Hval. unfold run_full_cycle, bind.
           rewrite Htest. simpl. rewrite Htruthy. simpl.
           rewrite Han, Hap, Hadv, Hval. reflexivity.
Qed.

Lemma phase_exception_ends_cycle_witness :
  let P := mkPhases (fun ctx => ret [("success", VBool true)])
                    default_phase_analyze default_phase_apply default_phase_validate in
  let w0 := fresh_world "TestComponent" None "blueprints" ∅ in
  run_full_cycle P [] w0 = (Raise TypeError, entered ANALYZE w0).
Proof.
  cbv zeta.
  destruct (phase_exception_ends_cycle
              (mkPhases (fun ctx => ret [("success", VBool true)])
                        default_phase_analyze default_phase_apply default_phase_validate)
              [] (fresh_world "TestComponent" None "blueprints" ∅)) as [_ Hlater].
  destruct (Hlater [("success", VBool true)]
              (fresh_world "TestComponent" None "blueprints" ∅) eq_refl eq_refl)
    as [Hanalyze _].
  apply Hanalyze. reflexivity.
Defined.

(** X13. When the Apply result's [changes] is [None], a number or a
    boolean, [phase_advance] raises [TypeError] only after it has advanced
    the counter and emptied the working set: no snapshot is sealed for the
    new generation number, and the callback is not called. *)
Theorem advance_with_uniterable_changes `{Host} :
  forall (r : PyDict) (v : PyVal) (w : World),
    dict_get "changes" r = Some v ->
    py_iter v = Raise TypeError ->
    let w' := snd (phase_advance r w) in
    fst (phase_advance r w) = Raise TypeError /\
    current_generation (tracker w') = current_generation (tracker w) + 1 /\
    history (tracker w') = history (tracker w) /\
    _current_metrics (tracker w') = [] /\
    _current_artifacts (tracker w') = [] /\
    persisted w' = persisted w /\
    current_phase w' = ADVANCE.
Proof.
  intros r v w Hv Hiter. cbv zeta.
  rewrite (phase_advance_not_iterable r w TypeError).
  - repeat split; reflexivity.
  - unfold get_default. rewrite Hv. exact Hiter.
Qed.

Lemma advance_with_uniterable_changes_witness :
  let w := fresh_world "TestComponent" None "blueprints" ∅ in
  let w' := snd (phase_advance [("changes", VNone)] w) in
  fst (phase_advance [("changes", VNone)] w) = Raise TypeError /\
  current_generation (tracker w') = 1 /\
  history (tracker w') = [].
Proof.
  cbv zeta.
  destruct (advance_with_uniterable_changes [("changes", VNone)] VNone
              (fresh_world "TestComponent" None "blueprints" ∅) eq_refl eq_refl)
    as (Hraise & Hgen & Hhist & _).
  split; [exact Hraise|]. split; [exact Hgen | exact Hhist].
Defined.

(** X14. [phase_advance] logs one [applied_change] metric for every item
    its loop draws from [changes]: the elements of a list, the characters of
    a string, the keys of a mapping, nothing when the key is missing.  The
    sealed snapshot holds these metrics and no others, and its changelog is
    [changes] itself, or [[]] when [changes] is missing or empty. *)
Theorem advance_logs_one_metric_per_item `{Host} :
  forall (r : PyDict) (items : list PyVal) (w : World),
    py_iter (get_default "changes" (VList []) r) = Ok items ->
    exists snap,
      history (tracker (snd (phase_advance r w))) = history (tracker w) ++ [snap] /\
      map metric_content (GenerationSnapshot.metrics snap) =
        map (fun item => ("applied_change", VInt 1, VDict [("desc", item)])) items /\
      GenerationSnapshot.changelog snap = advance_changelog r /\
      GenerationSnapshot.gen_id snap = current_generation (tracker w) + 1 /\
      GenerationSnapshot.status snap = STABLE /\
      GenerationSnapshot.artifacts snap = [] /\
      (dict_get "changes" r = None -> items = [] /\ advance_changelog r = VList []) /\
      (forall s, dict_get "changes" r = Some (VStr s) ->
         items = chars s /\
         advance_changelog r = if String.eqb s "" then VList [] else VStr s).
Proof.
  intros r items w Hiter.
  destruct (phase_advance_iterable r w items Hiter) as (Hh & _).
  eexists. split; [exact Hh|]. simpl.
  split; [apply applied_change_metrics_content|].
  repeat (split; [reflexivity|]). split.
  - intros Hnone. unfold advance_changelog, get_default in *. rewrite Hnone in *.
    simpl in Hiter. injection Hiter as <-. split; reflexivity.
  - intros s Hs. unfold advance_changelog, get_default in *. rewrite Hs in *.
    simpl in Hiter. injection Hiter as <-. split; [reflexivity|].
    unfold py_or. simpl. destruct (String.eqb s ""); reflexivity.
Qed.

Lemma advance_logs_one_metric_per_item_witness :
  exists snap,
    history (tracker (snd (phase_advance [("changes", VStr "ab")]
                             (fresh_world "TestComponent" None "blueprints" ∅)))) = [snap] /\
    map metric_content (GenerationSnapshot.metrics snap) =
      [("applied_change", VInt 1, VDict [("desc", VStr "a")]);
       ("applied_change", VInt 1, VDict [("desc", VStr "b")])] /\
    GenerationSnapshot.changelog snap = VStr "ab".
Proof.
  destruct (advance_logs_one_metric_per_item [("changes", VStr "ab")]
              [VStr "a"; VStr "b"]
              (fresh_world "TestComponent" None "blueprints" ∅) eq_refl)
    as (snap & Hh & Hm & Hlog & _).
  exists snap. split; [exact Hh|]. split; [exact Hm | exact Hlog].
Defined.

Section CycleFacts.
Context `{Host}.

Lemma run_cycles_cons P ctx ctxs w :
  run_cycles P (ctx :: ctxs) w = run_cycles P ctxs (snd (run_full_cycle P ctx w)).
Proof. reflexivity. Qed.

Lemma only_applied_changes_snoc h snap :
  only_applied_changes h ->
  Forall (fun m => GenerationMetric.name m = "applied_change")
         (GenerationSnapshot.metrics snap) ->
  only_applied_changes (h ++ [snap]).
Proof.
  intros Hh Hs. unfold only_applied_changes. apply Forall_app. split; [exact Hh|].
  constructor; [exact Hs | constructor].
Qed.

(** What one cycle does to the history when the replaceable phases respect
    the tracker's generation state: nothing, or one snapshot more, and
    that one holds only [applied_change] metrics. *)
Lemma run_full_cycle_history P ctx w :
  phases_respect P ->
  history (tracker (snd (run_full_cycle P ctx w))) = history (tracker w) \/
  exists snap,
    history (tracker (snd (run_full_cycle P ctx w))) = history (tracker w) ++ [snap] /\
    Forall (fun m => GenerationMetric.name m = "applied_change")
           (GenerationSnapshot.metrics snap).
Proof.
  intros (Htest & Hanalyze & Happly & Hvalidate).
  unfold run_full_cycle, bind.
  pose proof (Htest ctx w) as [_ Hh1].
  destruct (phase_test P ctx w) as [[r_test|e] w1] eqn:E1; simpl in Hh1;
    [|left; exact Hh1].
  simpl. destruct (negb (truthy (get_default "success" (VBool false) r_test)));
    [left; exact Hh1|].
  pose proof (Hanalyze r_test w1) as [_ Hh2].
  destruct (phase_analyze P r_test w1) as [[r_analyze|e] w2] eqn:E2; simpl in Hh2;
    [|left; simpl; congruence].
  pose proof (Happly r_analyze ctx w2) as [_ Hh3].
  destruct (phase_apply P r_analyze ctx w2) as [[r_apply|e] w3] eqn:E3; simpl in Hh3;
    [|left; simpl; congruence].
  assert (history (tracker w3) = history (tracker w)) as Hh by congruence.
  pose proof (phase_advance_history r_apply w3) as Hadv.
  destruct (phase_advance r_apply w3) as [[r_advance|e] w4] eqn:E4; simpl in Hadv.
  - pose proof (Hvalidate r_advance w4) as [_ Hh5].
    assert (history (tracker (snd (let (o, w') := phase_validate P r_advance w4 in
                                  match o with
                                  | Ok a => ret (dict_set "validate" a
                                                   (dict_set "advance" r_advance
                                                      (dict_set "apply" r_apply
                                                         (dict_set "analyze" r_analyze
                                                            (dict_set "test" r_test [])))))
                                              w'
                                  | Raise e => (Raise e, w')
                                  end)))
            = history (tracker w4)) as Hfinal.
    { destruct (phase_validate P r_advance w4) as [[r_validate|e] w5]; simpl in *;
        exact Hh5. }
    simpl. simpl in Hfinal. rewrite Hfinal.
    destruct Hadv as [Hsame | (snap & Hsnap & _ & Hnames)].
    + left. congruence.
    + right. exists snap. rewrite Hsnap, Hh. split; [reflexivity | exact Hnames].
  - simpl. destruct Hadv as [Hsame | (snap & Hsnap & _ & Hnames)].
    + left. congruence.
    + right. exists snap. rewrite Hsnap, Hh. split; [reflexivity | exact Hnames].
Qed.

Lemma run_cycles_only_applied_changes P ctxs : forall w,
  phases_respect P ->
  only_applied_changes (history (tracker w)) ->
  only_applied_changes (history (tracker (run_cycles P ctxs w))).
Proof.
  induction ctxs as [|ctx ctxs IH]; intros w HP Hw; [exact Hw|].
  rewrite run_cycles_cons. apply IH; [exact HP|].
  destruct (run_full_cycle_history P ctx w HP) as [-> | (snap & -> & Hnames)];
    [exact Hw | apply only_applied_changes_snoc; assumption].
Qed.

Lemma trend_by_spec_cons x snap h :
  trend_by_spec x (snap :: h) =
  match List.find (fun m => String.eqb (GenerationMetric.name m) x)
                  (GenerationSnapshot.metrics snap) with
  | Some m => (GenerationSnapshot.gen_id snap, GenerationMetric.value m) :: trend_by_spec x h
  | None => trend_by_spec x h
  end.
Proof.
  unfold trend_by_spec. simpl.
  destruct (List.find _ (GenerationSnapshot.metrics snap)); reflexivity.
Qed.

Lemma trend_without_metric x h :
  Forall (fun snap => Forall (fun m => GenerationMetric.name m <> x)
                             (GenerationSnapshot.metrics snap)) h ->
  trend_by_spec x h = [].
Proof.
  induction h as [|snap h IH]; intros Hall; [reflexivity|].
  apply Forall_cons in Hall as [Hsnap Hall].
  rewrite trend_by_spec_cons, (IH Hall).
  assert (List.find (fun m => String.eqb (GenerationMetric.name m) x)
                    (GenerationSnapshot.metrics snap) = None) as ->; [|reflexivity].
  induction (GenerationSnapshot.metrics snap) as [|m ms IHm]; [reflexivity|].
  apply Forall_cons in Hsnap as [Hm Hms]. simpl.
  destruct (String.eqb (GenerationMetric.name m) x) eqn:E.
  - apply String.eqb_eq in E. contradiction.
  - apply IHm, Hms.
Qed.

Lemma phases_respect_default : phases_respect default_phases.
Proof.
  repeat split; try reflexivity.
  all: rewrite default_phase_analyze_eq; reflexivity.
Qed.

End CycleFacts.

(** X15. Through the loop only [applied_change] metrics reach the history:
    [phase_advance] empties the working set before it logs them, so what
    the Test, Analyze and Apply phases logged during the cycle (and what
    Validate logged in the cycle before) is discarded.  After any number of
    cycles on a new tracker, with phases that leave the generation counter
    and history alone, [get_metric_trend] is empty for every other name. *)
Theorem loop_seals_only_applied_changes `{Host} :
  forall (P : PhaseMethods) (contexts : list PyDict) (name root : string)
         (cb : option Callback) (fs : gmap string string) (x : string),
    phases_respect P ->
    x <> "applied_change" ->
    let w := run_cycles P contexts (fresh_world name cb root fs) in
    only_applied_changes (history (tracker w)) /\
    get_metric_trend x w = (Ok [], w).
Proof.
  intros P contexts name root cb fs x HP Hx w.
  assert (only_applied_changes (history (tracker w))) as Honly
    by (apply run_cycles_only_applied_changes; [exact HP | constructor]).
  split; [exact Honly|].
  unfold get_metric_trend, bind, get_tracker, ret.
  rewrite trend_of_history_spec, trend_without_metric; [reflexivity|].
  eapply Forall_impl; [exact Honly|]. intros snap Hsnap. simpl in *.
  eapply Forall_impl; [exact Hsnap|]. intros m Hm. simpl in *. congruence.
Qed.

Lemma loop_seals_only_applied_changes_witness :
  let w := run_cycles default_phases [[]; []; []]
             (fresh_world "DataProcessor" None "demo_data/blueprints" ∅) in
  get_metric_trend "phase_test_duration_ms" w = (Ok [], w) /\
  get_metric_trend "validation_success" w = (Ok [], w) /\
  length (history (tracker w)) = 3%nat.
Proof.
  cbv zeta. split; [|split].
  - apply (loop_seals_only_applied_changes default_phases [[]; []; []] "DataProcessor"
             "demo_data/blueprints" None ∅ "phase_test_duration_ms"
             phases_respect_default).
    discriminate.
  - apply (loop_seals_only_applied_changes default_phases [[]; []; []] "DataProcessor"
             "demo_data/blueprints" None ∅ "validation_success"
             phases_respect_default).
    discriminate.
  - vm_compute. reflexivity.
Defined.

Section DefaultCycles.
Context `{Host}.

Lemma run_default_cycles contexts : forall w,
  callback_returns (tracker w) ->
  let w' := run_cycles default_phases contexts w in
  current_generation (tracker w') =
    current_generation (tracker w) + Z.of_nat (length contexts) /\
  exists snaps,
    history (tracker w') = history (tracker w) ++ snaps /\
    gen_ids snaps =
      map (fun i => current_generation (tracker w) + Z.of_nat i) (seq 1 (length contexts)) /\
    Forall (fun snap =>
              GenerationSnapshot.changelog snap = VList [VStr "Ran optimizer"] /\
              map metric_content (GenerationSnapshot.metrics snap) =
                [("applied_change", VInt 1, VDict [("desc", VStr "Ran optimizer")])])
           snaps.
Proof.
  induction contexts as [|ctx ctxs IH]; intros w Hcb; cbv zeta.
  - simpl. split; [lia|]. exists []. rewrite app_nil_r.
    split; [reflexivity|]. split; [reflexivity | constructor].
  - rewrite run_cycles_cons.
    destruct (default_cycle_eq ctx w Hcb) as (Hrun & Hg & Hh & Hcb1).
    set (w3 := entered APPLY (entered ANALYZE (snd (default_phase_test ctx w)))) in *.
    set (snap := advance_snapshot w3 [VStr "Ran optimizer"]) in *.
    set (w1 := snd (default_phase_validate (advance_result w3 [VStr "Ran optimizer"])
                      (advanced_world w3 [VStr "Ran optimizer"]))) in *.
    assert (GenerationSnapshot.gen_id snap = current_generation (tracker w) + 1) as Hid
      by (unfold snap, w3; rewrite default_phase_test_eq; reflexivity).
    assert (GenerationSnapshot.changelog snap = VList [VStr "Ran optimizer"]) as Hlog
      by reflexivity.
    assert (map metric_content (GenerationSnapshot.metrics snap) =
              [("applied_change", VInt 1, VDict [("desc", VStr "Ran optimizer")])]) as Hm
      by reflexivity.
    clearbody w1 snap. rewrite Hrun. simpl snd.
    assert (callback_returns (tracker w1)) as Hcb'
      by (unfold callback_returns in *; rewrite Hcb1; exact Hcb).
    destruct (IH w1 Hcb') as (Hg' & snaps & Hh' & Hids & Hall).
    split; [rewrite Hg', Hg; simpl length; lia|].
    exists (snap :: snaps). split; [rewrite Hh', Hh, <- app_assoc; reflexivity|].
    split.
    + simpl length. rewrite <- cons_seq. simpl. rewrite Hid. f_equal; try lia.
      rewrite Hids, Hg, <- (seq_shift _ 1), map_map. apply map_ext. intros i. lia.
    + constructor; [split; assumption | exact Hall].
Qed.

Lemma trend_of_applied_changes snaps tags :
  Forall (fun snap =>
            map metric_content (GenerationSnapshot.metrics snap) =
              [("applied_change", VInt 1, tags)]) snaps ->
  trend_by_spec "applied_change" snaps =
  map (fun snap => (GenerationSnapshot.gen_id snap, VInt 1)) snaps.
Proof.
  induction snaps as [|snap snaps IH]; intros Hall; [reflexivity|].
  apply Forall_cons in Hall as [Hsnap Hall].
  rewrite trend_by_spec_cons, (IH Hall). simpl.
  destruct (GenerationSnapshot.metrics snap) as [|m ms]; [discriminate|].
  destruct ms; [|discriminate]. unfold metric_content in Hsnap. simpl in *.
  injection Hsnap as Hname Hvalue _. rewrite Hname. simpl. rewrite Hvalue. reflexivity.
Qed.

End DefaultCycles.

(** X16. With the default phases, n cycles in a row seal n generations
    numbered consecutively from the counter on: the counter grows by n, the
    history gains n snapshots with [gen_id]s [c+1, ..., c+n], each with
    changelog [["Ran optimizer"]], and these contribute one
    [applied_change] entry of value 1 each to the metric trend. *)
Theorem default_cycles_number_generations `{Host} :
  forall (contexts : list PyDict) (w : World),
    callback_returns (tracker w) ->
    let w' := run_cycles default_phases contexts w in
    let c := current_generation (tracker w) in
    current_generation (tracker w') = c + Z.of_nat (length contexts) /\
    exists snaps,
      history (tracker w') = history (tracker w) ++ snaps /\
      gen_ids snaps = map (fun i => c + Z.of_nat i) (seq 1 (length contexts)) /\
      Forall (fun snap => GenerationSnapshot.changelog snap = VList [VStr "Ran optimizer"])
             snaps /\
      trend_by_spec "applied_change" snaps =
        map (fun i => (c + Z.of_nat i, VInt 1)) (seq 1 (length contexts)).
Proof.
  intros contexts w Hcb. cbv zeta.
  destruct (run_default_cycles contexts w Hcb) as (Hg & snaps & Hh & Hids & Hall).
  split; [exact Hg|]. exists snaps. split; [exact Hh|]. split; [exact Hids|]. split.
  - eapply Forall_impl; [exact Hall|]. intros snap [Hlog _]. exact Hlog.
  - rewrite (trend_of_applied_changes snaps (VDict [("desc", VStr "Ran optimizer")])).
    + unfold gen_ids in Hids.
      transitivity (map (fun g => (g, VInt 1)) (map GenerationSnapshot.gen_id snaps)).
      * rewrite map_map. reflexivity.
      * rewrite Hids, map_map. reflexivity.
    + eapply Forall_impl; [exact Hall|]. intros snap [_ Hm]. exact Hm.
Qed.

Lemma default_cycles_number_generations_witness :
  let w0 := call (CallFinalize ALPHA (VList [VStr "Initial setup"]))
                 (fresh_world "DataProcessor" None "demo_data/blueprints" ∅) in
  let w := run_cycles default_phases [[]; []; []] w0 in
  current_generation (tracker w) = 3 /\
  length (history (tracker w)) = 4%nat /\
  gen_ids (history (tracker w)) = [0; 1; 2; 3].
Proof.
  cbv zeta.
  destruct (default_cycles_number_generations [[]; []; []]
              (call (CallFinalize ALPHA (VList [VStr "Initial setup"]))
                    (fresh_world "DataProcessor" None "demo_data/blueprints" ∅)) I)
    as (Hg & snaps & Hh & Hids & _).
  split; [exact Hg|]. rewrite Hh. unfold gen_ids in *.
  rewrite length_app, map_app, Hids, <- (length_map GenerationSnapshot.gen_id snaps), Hids.
  split; reflexivity.
Defined.

(** ** The demo's agent and phases *)

Section DemoFacts.
Context `{Host}.

Lemma process_analysis_of_list (recs : list PyVal) (rest : PyDict) :
  process_analysis (("recommendations", VList recs) :: rest) =
  Ok (demo_changes
        (existsb (fun x => match x with
                           | VStr s => String.eqb s "optimize_processing"
                           | _ => false
                           end) recs)
        (existsb (fun x => match x with
                           | VStr s => String.eqb s "improve_error_handling"
                           | _ => false
                           end) recs)).
Proof.
  unfold process_analysis, get_default. simpl.
  destruct (existsb _ recs); destruct (existsb _ recs); reflexivity.
Qed.

Lemma fs_can_write_writable path : fs_can_write path = true -> fs_access path = Writable.
Proof. unfold fs_can_write. destruct (fs_access path); [reflexivity | discriminate..]. Qed.

Lemma demo_phase_apply_eq analysis context changes w :
  process_analysis analysis = Ok changes ->
  path_refused (blueprint_file "DataProcessor" (demo_v_curr w) w) = false ->
  fs_can_write (blueprint_file "DataProcessor" (demo_v_next w) w) = true ->
  let w1 := entered APPLY w in
  let w2 := with_files (<[blueprint_node "DataProcessor" (demo_v_next w) w :=
                            demo_update w changes]> (files w)) w1 in
  exists diff,
    diff_blueprints "DataProcessor" (demo_v_curr w) (demo_v_next w) w2 = (Ok diff, w2) /\
    demo_phase_apply analysis context w =
    (Ok [("changes", VList (map VStr changes));
         ("diff_summary",
            VStr ("Modified " +:+ str_of_int (Z.of_nat (length changes)) +:+ " items"));
         ("full_diff", VList (map VStr diff))], w2).
Proof.
  intros Hchanges Hcurr Hwrite. cbv zeta.
  apply fs_can_write_writable in Hwrite.
  set (w2 := with_files _ _).
  assert (Hd : exists diff,
             diff_blueprints "DataProcessor" (demo_v_curr w) (demo_v_next w) w2 =
             (Ok diff, w2)).
  { rewrite diff_blueprints_eq.
    change (blueprint_file "DataProcessor" (demo_v_curr w) w2)
      with (blueprint_file "DataProcessor" (demo_v_curr w) w).
    change (blueprint_file "DataProcessor" (demo_v_next w) w2)
      with (blueprint_file "DataProcessor" (demo_v_next w) w).
    rewrite Hwrite. unfold path_refused in Hcurr.
    destruct (fs_access (blueprint_file "DataProcessor" (demo_v_curr w) w));
      try discriminate; eauto. }
  destruct Hd as (diff & Hdiff). exists diff. split; [exact Hdiff|].
  unfold demo_phase_apply, bind at 1. unfold _switch_phase, set_phase. cbn [fst snd].
  unfold bind at 1. unfold lift_outcome. rewrite Hchanges.
  unfold bind at 1. unfold get_tracker. cbn [tracker current_generation].
  change (str_of_int (current_generation (tracker w)) +:+ ".0") with (demo_v_curr w).
  change (str_of_int (current_generation (tracker w) + 1) +:+ ".0") with (demo_v_next w).
  unfold bind at 1. rewrite load_blueprint_accepted by exact Hcurr.
  unfold bind at 1. rewrite save_blueprint_eq.
  match goal with
  | |- context [fs_access ?path] =>
      change path with (blueprint_file "DataProcessor" (demo_v_next w) w)
  end.
  rewrite Hwrite.
  unfold bind at 1.
  match goal with
  | |- context [diff_blueprints _ _ _ ?w0] => replace w0 with w2
  end.
  - rewrite Hdiff. reflexivity.
  - unfold w2, with_files, entered, _switch_phase, set_phase. cbn [fst snd]. f_equal.
    unfold demo_update, demo_base, stored_blueprint. cbn [files]. 
    destruct (files w !! _); reflexivity.
Qed.

End DemoFacts.

(** X17. The demo's agent always has something to change:
    [process_analysis] returns one or two changes, never an empty list, so
    every demo cycle that reaches ADVANCE logs at least one
    [applied_change]; it raises, a [TypeError], exactly when the report's
    [recommendations] entry is no container. *)
Theorem process_analysis_never_empty :
  forall (analysis_report : PyDict),
    match process_analysis analysis_report with
    | Ok changes =>
        changes <> [] /\ (length changes <= 2)%nat /\
        is_container (get_default "recommendations" (VList []) analysis_report) = true
    | Raise e =>
        e = TypeError /\
        is_container (get_default "recommendations" (VList []) analysis_report) = false
    end.
Proof.
  intros report. unfold process_analysis.
  destruct (get_default "recommendations" (VList []) report) as [|b|z|q|s|l|d]; simpl;
    try (split; reflexivity);
    repeat match goal with
           | |- context [if ?b then _ else _] =>
               match type of b with bool => destruct b end
           end;
    simpl; (split; [discriminate|split; [lia|reflexivity]]).
Qed.

(** X18. The demo's Analyze phase and its agent compose: for test results
    with a numeric latency, Analyze returns and the agent then returns the
    refactoring exactly when the latency exceeds 150 and the error handling
    exactly when [failures] is truthy, in this order, and the documentation
    update when neither holds. *)
Theorem demo_analysis_drives_agent `{Host} :
  forall (test_results : PyDict) (latency : PyVal) (slow : bool) (w : World),
    dict_get "latency" test_results = Some latency ->
    py_gt_int latency 150 = Ok slow ->
    exists analysis,
      demo_phase_analyze test_results w = (Ok analysis, entered ANALYZE w) /\
      process_analysis analysis =
        Ok (demo_changes slow (truthy (get_default "failures" VNone test_results))).
Proof.
  intros test_results latency slow w Hlat Hslow.
  unfold demo_phase_analyze, bind, _switch_phase, set_phase, lift_outcome, ret, entered.
  simpl. rewrite Hlat, Hslow. eexists. split; [reflexivity|].
  rewrite process_analysis_of_list.
  destruct slow; destruct (truthy _); reflexivity.
Qed.

Lemma demo_analysis_drives_agent_witness :
  exists analysis,
    fst (demo_phase_analyze [("latency", VInt 180); ("failures", VList [VStr "test_edge_case"])]
           (fresh_world "DataProcessor" None "demo_data/blueprints" ∅)) = Ok analysis /\
    process_analysis analysis =
      Ok ["Refactored loop for O(n) complexity"; "Added try/catch blocks to ingestion"].
Proof.
  destruct (demo_analysis_drives_agent
              [("latency", VInt 180); ("failures", VList [VStr "test_edge_case"])]
              (VInt 180) true
              (fresh_world "DataProcessor" None "demo_data/blueprints" ∅)
              eq_refl eq_refl) as (analysis & Hrun & Hagent).
  exists analysis. rewrite Hrun. split; [reflexivity|exact Hagent].
Defined.

(** X19. The demo's Apply phase, when the agent returns, the file system
    accepts the path of version [g] and the file of version [g+1] can be
    written: it stores as version [g+1] the text of version [g] as read
    back (the placeholder when that is missing or empty) followed by one
    update line, leaves every other file and the tracker alone, and returns
    the agent's changes with their number in [diff_summary]. *)
Theorem demo_apply_writes_next_version `{Host} :
  forall (analysis context : PyDict) (changes : list string) (w : World),
    process_analysis analysis = Ok changes ->
    path_refused (blueprint_file "DataProcessor" (demo_v_curr w) w) = false ->
    fs_can_write (blueprint_file "DataProcessor" (demo_v_next w) w) = true ->
    exists result w',
      demo_phase_apply analysis context w = (Ok result, w') /\
      stored_blueprint "DataProcessor" (demo_v_next w) w' = Some (demo_update w changes) /\
      (forall file, file <> blueprint_node "DataProcessor" (demo_v_next w) w ->
                    files w' !! file = files w !! file) /\
      tracker w' = tracker w /\
      current_phase w' = APPLY /\
      dict_get "changes" result = Some (VList (map VStr changes)) /\
      dict_get "diff_summary" result =
        Some (VStr ("Modified " +:+ str_of_int (Z.of_nat (length changes)) +:+ " items")).
Proof.
  intros analysis context changes w Hchanges Hcurr Hwrite.
  destruct (demo_phase_apply_eq analysis context changes w Hchanges Hcurr Hwrite)
    as (diff & _ & Hrun).
  eexists. eexists. split; [exact Hrun|].
  split.
  { unfold stored_blueprint. cbn [files with_files]. apply lookup_insert_eq. }
  split.
  { intros file Hfile. cbn [files with_files]. apply lookup_insert_ne. congruence. }
  repeat split.
Qed.

Lemma demo_apply_writes_next_version_witness :
  let w := snd (save_blueprint "DataProcessor" "task main:" "0.0"
                  (fresh_world "DataProcessor" None "demo_data/blueprints" ∅)) in
  exists result w',
    demo_phase_apply [("recommendations", VList [])] [] w = (Ok result, w') /\
    stored_blueprint "DataProcessor" "1.0" w' =
      Some ("task main:" +:+ newline +:+ "    # Update for 1.0: Minor documentation updates").
Proof.
  cbv zeta.
  set (w := snd (save_blueprint "DataProcessor" "task main:" "0.0"
                   (fresh_world "DataProcessor" None "demo_data/blueprints" ∅))).
  assert (Hcurr : path_refused (blueprint_file "DataProcessor" (demo_v_curr w) w) = false)
    by (vm_compute; reflexivity).
  assert (Hwrite : fs_can_write (blueprint_file "DataProcessor" (demo_v_next w) w) = true)
    by (vm_compute; reflexivity).
  destruct (demo_apply_writes_next_version [("recommendations", VList [])] []
              ["Minor documentation updates"] w eq_refl Hcurr Hwrite)
    as (result & w' & Hrun & Hstored & _).
  exists result, w'. split; [exact Hrun|].
  change (demo_v_next w) with "1.0" in Hstored.
  rewrite Hstored. vm_compute. reflexivity.
Defined.

(** X20. When version [g] is not in the store (as in the demo's first
    cycle, whose initial blueprint is version 1.0 while the counter is 0),
    the demo's Apply phase replaces whatever version [g+1] held by the
    placeholder text and one update line, and its [full_diff] is the
    missing-version message. *)
Theorem demo_apply_without_current_version `{Host} :
  forall (analysis context : PyDict) (changes : list string) (w : World),
    process_analysis analysis = Ok changes ->
    path_refused (blueprint_file "DataProcessor" (demo_v_curr w) w) = false ->
    fs_can_write (blueprint_file "DataProcessor" (demo_v_next w) w) = true ->
    stored_blueprint "DataProcessor" (demo_v_curr w) w = None ->
    blueprint_node "DataProcessor" (demo_v_curr w) w <>
      blueprint_node "DataProcessor" (demo_v_next w) w ->
    exists result w',
      demo_phase_apply analysis context w = (Ok result, w') /\
      stored_blueprint "DataProcessor" (demo_v_next w) w' =
        Some ("Initial Content" +:+ newline +:+ "    # Update for " +:+ demo_v_next w
                +:+ ": " +:+ str_join ", " changes) /\
      dict_get "full_diff" result =
        Some (VList [VStr "Error: One or both versions not found."]).
Proof.
  intros analysis context changes w Hchanges Haccepted Hwrite Hmissing Hfiles.
  destruct (demo_phase_apply_eq analysis context changes w Hchanges Haccepted Hwrite)
    as (diff & Hdiff & Hrun).
  eexists. eexists. split; [exact Hrun|].
  split.
  { unfold stored_blueprint. cbn [files with_files]. rewrite lookup_insert_eq.
    unfold demo_update, demo_base. rewrite Hmissing. reflexivity. }
  rewrite diff_blueprints_missing in Hdiff.
  - injection Hdiff as <-. reflexivity.
  - exact Haccepted.
  - apply writable_accepted, fs_can_write_writable, Hwrite.
  - left. unfold stored_blueprint, with_files. cbn [files].
    rewrite lookup_insert_ne; [exact Hmissing|].
    intros Heq. apply Hfiles. symmetry. exact Heq.
Qed.

Lemma demo_apply_without_current_version_witness :
  let w := snd (save_blueprint "DataProcessor" "task main:" "1.0"
                  (fresh_world "DataProcessor" None "demo_data/blueprints" ∅)) in
  exists result w',
    demo_phase_apply [("recommendations", VList [VStr "optimize_processing"])] [] w =
      (Ok result, w') /\
    stored_blueprint "DataProcessor" "1.0" w =  Some "task main:" /\
    stored_blueprint "DataProcessor" "1.0" w' =
      Some ("Initial Content" +:+ newline
              +:+ "    # Update for 1.0: Refactored loop for O(n) complexity") /\
    dict_get "full_diff" result =
      Some (VList [VStr "Error: One or both versions not found."]).
Proof.
  cbv zeta.
  set (w := snd (save_blueprint "DataProcessor" "task main:" "1.0"
                   (fresh_world "DataProcessor" None "demo_data/blueprints" ∅))).
  assert (Hcurr : path_refused (blueprint_file "DataProcessor" (demo_v_curr w) w) = false)
    by (vm_compute; reflexivity).
  assert (Hwrite : fs_can_write (blueprint_file "DataProcessor" (demo_v_next w) w) = true)
    by (vm_compute; reflexivity).
  assert (Hmissing : stored_blueprint "DataProcessor" (demo_v_curr w) w = None)
    by (vm_compute; reflexivity).
  assert (Hfiles : blueprint_node "DataProcessor" (demo_v_curr w) w <>
                   blueprint_node "DataProcessor" (demo_v_next w) w)
    by (vm_compute; discriminate).
  destruct (demo_apply_without_current_version
              [("recommendations", VList [VStr "optimize_processing"])] []
              ["Refactored loop for O(n) complexity"] w
              eq_refl Hcurr Hwrite Hmissing Hfiles)
    as (result & w' & Hrun & Hstored & Hdiff).
  change (demo_v_next w) with "1.0" in Hstored.
  exists result, w'. split; [exact Hrun|]. split; [vm_compute; reflexivity|].
  split; [rewrite Hstored; vm_compute; reflexivity|exact Hdiff].
Defined.
